(** * homebridge-garage-nexx: the NXG200 accessory and the platform

    A shallow embedding of [src/nxg200.ts] (the accessory: command
    adapter, reconciliation callback, [resetDeviceState], the three
    characteristic handlers) and of [src/platform.ts] (device discovery).

    JavaScript values that the code compares with [===] are kept as the
    values they are at run time: the machine's [state] is a string, a
    polled [DeviceStatus] is an arbitrary JavaScript value.  Asynchronous
    functions are programs of a small resumption monad: a program runs
    until it awaits the remote API, and the event loop resumes it when the
    answer arrives, so what happens between the two is visible. *)

From Stdlib Require Import ZArith String List Bool.
Import ListNotations.
Open Scope string_scope.
Open Scope list_scope.
Open Scope Z_scope.

Set Warnings "-register-all".

(** ** JavaScript values *)

Inductive JsValue : Type :=
| JsUndefined
| JsNull
| JsBool (b : bool)
| JsNum (n : Z)
| JsStr (s : string)
| JsObj (fields : list (string * JsValue)).

(** [a ?? b]: the right operand replaces [undefined] and [null] only. *)
Definition nullish (v : JsValue) : bool :=
  match v with
  | JsUndefined | JsNull => true
  | _ => false
  end.

Definition nullish_coalesce (a b : JsValue) : JsValue :=
  if nullish a then b else a.

(** [!!v] *)
Definition truthy (v : JsValue) : bool :=
  match v with
  | JsUndefined | JsNull => false
  | JsBool b => b
  | JsNum n => negb (n =? 0)
  | JsStr s => negb (s =? "")%string
  | JsObj _ => true
  end.

(** [v !== false] *)
Definition strict_ne_false (v : JsValue) : bool :=
  match v with
  | JsBool false => false
  | _ => true
  end.

(** An optional string property read as a value. *)
Definition of_opt_string (o : option string) : JsValue :=
  match o with
  | Some s => JsStr s
  | None => JsUndefined
  end.

Inductive JsError : Type :=
| ApiError (message : string)
| TypeError (message : string).

(** ** HomeKit constants (hap-nodejs) *)

Module CurrentDoorState.
Definition OPEN : Z := 0.
Definition CLOSED : Z := 1.
Definition OPENING : Z := 2.
Definition CLOSING : Z := 3.
Definition STOPPED : Z := 4.
End CurrentDoorState.

Module TargetDoorState.
Definition OPEN : Z := 0.
Definition CLOSED : Z := 1.
End TargetDoorState.

Inductive Categories : Type :=
| OTHER
| BRIDGE
| GARAGE_DOOR_OPENER
| DOOR_LOCK
| DOOR.

(** ** The device record *)

(** [enum GarageDoorState { Open = 1, Closed = 2 }] *)
Module GarageDoorState.
Definition Open : JsValue := JsNum 1.
Definition Closed : JsValue := JsNum 2.
End GarageDoorState.

Record Device : Type := mkDevice {
  DeviceId : string;
  DeviceNickName : string;
  DeviceStatus : JsValue;
  LastOperationTimestamp : string;
  ProductCode : string;
  DeviceType : option string
}.

(** The switch of [resetDeviceState] and the [===] tests of the
    reconciliation callback only tell these three cases apart. *)
Inductive StatusCase : Type := IsOpen | IsClosed | IsOther.

Definition status_case (v : JsValue) : StatusCase :=
  match v with
  | JsNum 1 => IsOpen
  | JsNum 2 => IsClosed
  | _ => IsOther
  end.

Definition is_Open (v : JsValue) : bool :=
  match status_case v with IsOpen => true | _ => false end.

Definition is_Closed (v : JsValue) : bool :=
  match status_case v with IsClosed => true | _ => false end.

(** ** The door state machine

    Modelled from the spec: the class [FSM] of [./nxg200_state_machine]
    is imported by the accessory but its file is not part of the source.
    Its fields and operations follow sections 3 and 4.1 of the
    specification. *)

(** The value of [new Date(s).getTime()]; [None] is [NaN]. *)
Definition Timestamp : Type := option Z.

(** Modelled from the spec: the fields of the missing class [FSM], with
    the two the constructor assigns ([deviceId], [platformUUID]). *)
Record FSM : Type := mkFSM {
  state : string;
  transitioning : bool;
  lastTransition : Timestamp;
  deviceId : string;
  platformUUID : string
}.

Definition set_state (s : string) (t : bool) (f : FSM) : FSM :=
  mkFSM s t (lastTransition f) (deviceId f) (platformUUID f).

Definition set_lastTransition (ts : Timestamp) (f : FSM) : FSM :=
  mkFSM (state f) (transitioning f) ts (deviceId f) (platformUUID f).

Definition set_deviceId (id : string) (f : FSM) : FSM :=
  mkFSM (state f) (transitioning f) (lastTransition f) id (platformUUID f).

Definition set_platformUUID (u : string) (f : FSM) : FSM :=
  mkFSM (state f) (transitioning f) (lastTransition f) (deviceId f) u.

Definition set_transitioning (t : bool) (f : FSM) : FSM :=
  mkFSM (state f) t (lastTransition f) (deviceId f) (platformUUID f).

(** Modelled from the spec: the argument of [can], ['open'] or ['close'],
    and the state a command in that direction aims at. *)
Inductive Direction : Type := DirOpen | DirClose.

Definition target_state (d : Direction) : string :=
  match d with
  | DirOpen => "open"
  | DirClose => "closed"
  end.

Module Fsm.
(** Modelled from the spec: [resetOpen()] forces the state to [open]
    and clears [transitioning]. *)
Definition resetOpen (f : FSM) : FSM := set_state "open" false f.

(** Modelled from the spec: [resetClosed()]. *)
Definition resetClosed (f : FSM) : FSM := set_state "closed" false f.

(** Modelled from the spec: [stuck()] forces the state to [stuck] and
    clears [transitioning]. *)
Definition stuck (f : FSM) : FSM := set_state "stuck" false f.

(** Modelled from the spec: [can(direction)] holds iff the state is not
    the target state and no transition is in flight. *)
Definition can (d : Direction) (f : FSM) : bool :=
  negb (state f =? target_state d)%string && negb (transitioning f).

(** Modelled from the spec: [isTransitioning()]. *)
Definition isTransitioning (f : FSM) : bool := transitioning f.
End Fsm.

(** ** What the accessory does to its surroundings *)

Inductive LogLevel : Type := Debug | Info | Warn | Error.

(** One constructor per log statement of the accessory, with the values
    its template interpolates. *)
Inductive Message : Type :=
| MsgChecking (f : FSM)
| MsgApiStatus (status : JsValue)
| MsgResetOpen (f : FSM) (status : JsValue) (ts : string)
| MsgResetClosed (f : FSM) (status : JsValue) (ts : string)
| MsgFailedToUnderstand (f : FSM) (status : JsValue) (ts : string)
| MsgSetTarget (value : Z) (f : FSM)
| MsgAttemptOpenBut (f : FSM)
| MsgAttemptCloseBut (f : FSM)
| MsgTransitionedOpen
| MsgTransitionedClosed
| MsgProblem (f : FSM) (e : JsError)
| MsgGetTarget (f : FSM)
| MsgGetCurrent (f : FSM)
| MsgGetObstruction (f : FSM).

(** Calls of the remote client [platform.nexxApiClient]. *)
Inductive ApiCall : Type :=
| ApiGetDeviceState (id : string)
| ApiOpen (id : string) (metadata : JsValue)
| ApiClose (id : string) (metadata : JsValue).

(** How the promise of a remote call settles; [Resolved r] carries the
    [Result] property of the answer when it has one. *)
Inductive ApiResult : Type :=
| Resolved (result : option Device)
| Rejected (e : JsError).

(** The two arrow functions handed to [setTimeout]. *)
Inductive TimerCallback : Type := ConfirmOpen | ConfirmClosed.

Inductive FsmOp : Type :=
| OpResetOpen | OpResetClosed | OpStuck | OpOpen | OpClose.

Inductive Event : Type :=
| EvLog (level : LogLevel) (m : Message)
| EvFsm (op : FsmOp)
| EvSetCurrentDoorState (v : Z)
| EvSetCharacteristic (name : string) (v : string)
| EvSetTimeout (cb : TimerCallback) (ms : Z)
| EvSetInterval (ms : Z)
| EvApi (c : ApiCall).

Record World : Type := mkWorld {
  fsm : FSM;
  (** the value last pushed with
      [service.setCharacteristic(CurrentDoorState, _)] *)
  currentDoorState : option Z;
  (** timers scheduled and not fired yet; the code never clears one *)
  timers : list (TimerCallback * Z);
  (** everything done so far, oldest first *)
  trace : list Event
}.

Definition with_fsm (f : FSM) (w : World) : World :=
  mkWorld f (currentDoorState w) (timers w) (trace w).

Definition record_event (e : Event) (w : World) : World :=
  mkWorld (fsm w) (currentDoorState w) (timers w) (trace w ++ [e]).

(** ** Asynchronous programs *)

Inductive Prog (A : Type) : Type :=
| Ret (a : A)
| Throw (e : JsError)
| Get (k : World -> Prog A)
| Put (w : World) (k : Prog A)
| Await (c : ApiCall) (k : ApiResult -> Prog A).

Arguments Ret {A} a.
Arguments Throw {A} e.
Arguments Get {A} k.
Arguments Put {A} w k.
Arguments Await {A} c k.

Fixpoint bind {A B : Type} (p : Prog A) (f : A -> Prog B) : Prog B :=
  match p with
  | Ret a => f a
  | Throw e => Throw e
  | Get k => Get (fun w => bind (k w) f)
  | Put w k => Put w (bind k f)
  | Await c k => Await c (fun r => bind (k r) f)
  end.

(** [try { p } catch (e) { h e }] *)
Fixpoint try_catch {A : Type} (p : Prog A) (h : JsError -> Prog A) : Prog A :=
  match p with
  | Ret a => Ret a
  | Throw e => h e
  | Get k => Get (fun w => try_catch (k w) h)
  | Put w k => Put w (try_catch k h)
  | Await c k => Await c (fun r => try_catch (k r) h)
  end.

Declare Scope prog_scope.
Delimit Scope prog_scope with prog.
Notation "x <- p ;; q" := (bind p (fun x => q))
  (at level 61, p at next level, right associativity) : prog_scope.
Notation "p ;; q" := (bind p (fun _ => q))
  (at level 61, right associativity) : prog_scope.
Notation "'try' p 'catch' h" := (try_catch p h)
  (at level 60, p at level 200, h at level 9) : prog_scope.
Open Scope prog_scope.

Definition modify (f : World -> World) : Prog unit :=
  Get (fun w => Put (f w) (Ret tt)).

Definition read {A : Type} (f : World -> A) : Prog A :=
  Get (fun w => Ret (f w)).

(** [await client.call(...)]: the value of a resolved promise, the error
    of a rejected one thrown. *)
Definition await (c : ApiCall) : Prog (option Device) :=
  Await c (fun r =>
    match r with
    | Resolved d => Ret d
    | Rejected e => Throw e
    end).

Inductive Result (A : Type) : Type :=
| Returned (a : A)
| Threw (e : JsError).

Arguments Returned {A} a.
Arguments Threw {A} e.

(** A program run with nothing else scheduled in between: every remote
    call is answered by [remote] at once. *)
Fixpoint exec {A : Type} (p : Prog A) (remote : ApiCall -> ApiResult)
    (w : World) : World * Result A :=
  match p with
  | Ret a => (w, Returned a)
  | Throw e => (w, Threw e)
  | Get k => exec (k w) remote w
  | Put w' k => exec k remote w'
  | Await c k => exec (k (remote c)) remote (record_event (EvApi c) w)
  end.

(** A program run up to its next remote call. *)
Inductive Paused (A : Type) : Type :=
| Finished (r : Result A)
| Suspended (c : ApiCall) (k : ApiResult -> Prog A).

Arguments Finished {A} r.
Arguments Suspended {A} c k.

Fixpoint segment {A : Type} (p : Prog A) (w : World) : World * Paused A :=
  match p with
  | Ret a => (w, Finished (Returned a))
  | Throw e => (w, Finished (Threw e))
  | Get k => segment (k w) w
  | Put w' k => segment k w'
  | Await c k => (record_event (EvApi c) w, Suspended c k)
  end.

(** ** Primitive actions *)

Definition log (level : LogLevel) (m : Message) : Prog unit :=
  modify (record_event (EvLog level m)).

(** A log statement whose template prints the machine. *)
Definition log_fsm (level : LogLevel) (m : FSM -> Message) : Prog unit :=
  f <- read fsm ;; log level (m f).

(** A method of the machine called by the accessory. *)
Definition fsm_call (op : FsmOp) (method : FSM -> FSM) : Prog unit :=
  modify (fun w => record_event (EvFsm op) (with_fsm (method (fsm w)) w)).

Definition state_is (s : string) : Prog bool :=
  read (fun w => (state (fsm w) =? s)%string).

Definition setCurrentDoorState (v : Z) : Prog unit :=
  modify (fun w =>
    record_event (EvSetCurrentDoorState v)
      (mkWorld (fsm w) (Some v) (timers w) (trace w))).

Definition setCharacteristic (name v : string) : Prog unit :=
  modify (record_event (EvSetCharacteristic name v)).

Definition setTimeout (cb : TimerCallback) (ms : Z) : Prog unit :=
  modify (fun w =>
    record_event (EvSetTimeout cb ms)
      (mkWorld (fsm w) (currentDoorState w) (timers w ++ [(cb, ms)]) (trace w))).

Definition setInterval (ms : Z) : Prog unit :=
  modify (record_event (EvSetInterval ms)).

(** ** The accessory [NXG200] *)

Section Accessory.

(** [new Date(s).getTime()], a builtin. *)
Variable Date_getTime : string -> Timestamp.

(** [accessory.context.device] and [accessory.UUID] at construction. *)
Variable device : Device.
Variable UUID : string.

Definition deviceMeta : JsValue :=
  JsObj [("DeviceType", of_opt_string (DeviceType device));
         ("ProductCode", JsStr (ProductCode device))].

(** [clientAdapter.open] and [clientAdapter.close]: the bound methods of
    the base client, called once with [devArg ?? deviceMeta]. *)
Definition clientAdapter_open (id : string) (devArg : JsValue)
    : Prog (option Device) :=
  await (ApiOpen id (nullish_coalesce devArg deviceMeta)).

Definition clientAdapter_close (id : string) (devArg : JsValue)
    : Prog (option Device) :=
  await (ApiClose id (nullish_coalesce devArg deviceMeta)).

(** Modelled from the spec: [fsm.open()] and [fsm.close()] of the
    missing state machine.  They set [transitioning], call the client
    they were given (the adapter above) with the device id and no
    metadata, and await it; a failure moves the machine to [stuck] and
    is thrown on to the caller. *)
Definition fsm_command (d : Direction) : Prog unit :=
  modify (fun w => with_fsm (set_transitioning true (fsm w)) w) ;;
  id <- read (fun w => deviceId (fsm w)) ;;
  try
    (match d with
     | DirOpen => clientAdapter_open id JsUndefined
     | DirClose => clientAdapter_close id JsUndefined
     end ;; Ret tt)
  catch (fun e =>
    modify (fun w => with_fsm (Fsm.stuck (fsm w)) w) ;; Throw e).

(** [this.fsm.open()] and [this.fsm.close()] as the accessory calls
    them: the call is recorded, then the command runs. *)
Definition fsm_open : Prog unit :=
  modify (record_event (EvFsm OpOpen)) ;; fsm_command DirOpen.

Definition fsm_close : Prog unit :=
  modify (record_event (EvFsm OpClose)) ;; fsm_command DirClose.

Definition resetDeviceState (d : Device) : Prog unit :=
  modify (fun w =>
    with_fsm (set_lastTransition
                (Date_getTime (LastOperationTimestamp d)) (fsm w)) w) ;;
  match status_case (DeviceStatus d) with
  | IsOpen =>
      log_fsm Info (fun f =>
        MsgResetOpen f (DeviceStatus d) (LastOperationTimestamp d)) ;;
      fsm_call OpResetOpen Fsm.resetOpen
  | IsClosed =>
      log_fsm Info (fun f =>
        MsgResetClosed f (DeviceStatus d) (LastOperationTimestamp d)) ;;
      fsm_call OpResetClosed Fsm.resetClosed
  | IsOther =>
      log_fsm Info (fun f =>
        MsgFailedToUnderstand f (DeviceStatus d) (LastOperationTimestamp d)) ;;
      fsm_call OpStuck Fsm.stuck
  end.

(** The callback handed to [setInterval(_, 60_000)].  A settled poll
    without a [Result] makes [d.DeviceStatus] a TypeError. *)
Definition reconcile : Prog unit :=
  log_fsm Debug MsgChecking ;;
  t <- read (fun w => Fsm.isTransitioning (fsm w)) ;;
  if negb t then
    id <- read (fun w => deviceId (fsm w)) ;;
    r <- await (ApiGetDeviceState id) ;;
    match r with
    | None => Throw (TypeError "Cannot read properties of undefined")
    | Some d =>
        log Debug (MsgApiStatus (DeviceStatus d)) ;;
        o <- state_is "open" ;;
        if o && negb (is_Open (DeviceStatus d)) then resetDeviceState d
        else
          c <- state_is "closed" ;;
          if c && negb (is_Closed (DeviceStatus d)) then resetDeviceState d
          else
            s <- state_is "stuck" ;;
            if s && (is_Open (DeviceStatus d) || is_Closed (DeviceStatus d))
            then resetDeviceState d
            else Ret tt
    end
  else Ret tt.

(** The constructor; [fresh] is the machine [new FSM()] returns. *)
Definition constructor (fresh : FSM) : Prog unit :=
  modify (with_fsm (set_platformUUID UUID
                      (set_deviceId (DeviceId device) fresh))) ;;
  resetDeviceState device ;;
  setCharacteristic "Manufacturer" "Nexx" ;;
  setCharacteristic "Model" (ProductCode device) ;;
  setCharacteristic "SerialNumber" (DeviceId device) ;;
  setCharacteristic "Name" (DeviceNickName device) ;;
  setInterval 60000.

(** The arrow functions of the two [setTimeout(_, 12_000)]. *)
Definition run_timer (cb : TimerCallback) : Prog unit :=
  match cb with
  | ConfirmOpen =>
      setCurrentDoorState CurrentDoorState.OPEN ;;
      log Debug MsgTransitionedOpen
  | ConfirmClosed =>
      setCurrentDoorState CurrentDoorState.CLOSED ;;
      log Debug MsgTransitionedClosed
  end.

Definition setTargetDoorState (value : Z) : Prog unit :=
  log_fsm Debug (MsgSetTarget value) ;;
  try
    (if value =? TargetDoorState.OPEN then
       setCurrentDoorState CurrentDoorState.OPENING ;;
       c <- read (fun w => Fsm.can DirOpen (fsm w)) ;;
       (if c then fsm_open else log_fsm Warn MsgAttemptOpenBut) ;;
       setTimeout ConfirmOpen 12000
     else
       setCurrentDoorState CurrentDoorState.CLOSING ;;
       c <- read (fun w => Fsm.can DirClose (fsm w)) ;;
       (if c then fsm_close else log_fsm Warn MsgAttemptCloseBut) ;;
       setTimeout ConfirmClosed 12000)
  catch (fun e =>
    log_fsm Error (fun f => MsgProblem f e) ;;
    fsm_call OpStuck Fsm.stuck ;;
    setCurrentDoorState CurrentDoorState.STOPPED).

Definition getTargetDoorState : Prog Z :=
  log_fsm Debug MsgGetTarget ;;
  o <- state_is "open" ;;
  if o then Ret TargetDoorState.OPEN
  else
    c <- state_is "closed" ;;
    if c then Ret TargetDoorState.CLOSED
    else Ret TargetDoorState.CLOSED.

Definition getCurrentDoorState : Prog Z :=
  log_fsm Debug MsgGetCurrent ;;
  o <- state_is "open" ;;
  if o then
    t <- read (fun w => Fsm.isTransitioning (fsm w)) ;;
    Ret (if t then CurrentDoorState.OPENING else CurrentDoorState.OPEN)
  else
    c <- state_is "closed" ;;
    if c then
      t <- read (fun w => Fsm.isTransitioning (fsm w)) ;;
      Ret (if t then CurrentDoorState.CLOSING else CurrentDoorState.CLOSED)
    else Ret CurrentDoorState.STOPPED.

Definition getObstructionDetected : Prog bool :=
  log_fsm Debug MsgGetObstruction ;;
  state_is "stuck".

End Accessory.

(** ** The event loop

    The accessory's callbacks run one at a time, each up to its next
    remote call; the rest of it runs when that call's promise settles.
    Between the two any other callback may run. *)

Record Loop : Type := mkLoop {
  world : World;
  (** awaited calls whose promise has not settled, with what runs then *)
  pending : list (ApiCall * (ApiResult -> Prog unit))
}.

Inductive Stimulus : Type :=
| IntervalFires
| HomeKitSet (value : Z)
| TimerFires (i : nat)
| Settles (i : nat) (r : ApiResult).

Fixpoint remove_nth {A : Type} (i : nat) (l : list A) : list A :=
  match l, i with
  | [], _ => []
  | _ :: t, O => t
  | h :: t, S j => h :: remove_nth j t
  end.

(** Run a callback up to its next remote call.  A finished callback's
    outcome is dropped: nobody awaits the interval or the timers. *)
Definition run_callback (p : Prog unit) (l : Loop) : Loop :=
  match segment p (world l) with
  | (w, Finished _) => mkLoop w (pending l)
  | (w, Suspended c k) => mkLoop w (pending l ++ [(c, k)])
  end.

Section EventLoop.

Variable Date_getTime : string -> Timestamp.
Variable device : Device.

Definition loop_step (s : Stimulus) (l : Loop) : option Loop :=
  match s with
  | IntervalFires => Some (run_callback (reconcile Date_getTime) l)
  | HomeKitSet v => Some (run_callback (setTargetDoorState device v) l)
  | TimerFires i =>
      match nth_error (timers (world l)) i with
      | Some (cb, _) =>
          let w := world l in
          let w' := mkWorld (fsm w) (currentDoorState w)
                      (remove_nth i (timers w)) (trace w) in
          Some (run_callback (run_timer cb) (mkLoop w' (pending l)))
      | None => None
      end
  | Settles i r =>
      match nth_error (pending l) i with
      | Some (_, k) =>
          Some (run_callback (k r)
                  (mkLoop (world l) (remove_nth i (pending l))))
      | None => None
      end
  end.

Fixpoint loop_run (ss : list Stimulus) (l : Loop) : option Loop :=
  match ss with
  | [] => Some l
  | s :: rest =>
      match loop_step s l with
      | Some l' => loop_run rest l'
      | None => None
      end
  end.

End EventLoop.

(** ** The platform: device discovery *)

(** [config.options], when the user wrote one. *)
Record Options : Type := mkOptions {
  includeGate : JsValue;
  treatGateAsGarage : JsValue
}.

Record PlatformConfig : Type := mkConfig {
  name : string;
  options : option Options
}.

Record PlatformAccessory : Type := mkAccessory {
  displayName : string;
  accessoryUUID : string;
  category : Categories;
  context_device : option Device
}.

Inductive PlatformAction : Type :=
| LogSkipping (d : Device)
| LogRegistering (d : Device)
| LogRestoring (displayName : string)
| UpdatePlatformAccessories (a : PlatformAccessory)
| LogAdding (nickName : string)
| NewNXG200 (a : PlatformAccessory)
| RegisterPlatformAccessories (a : PlatformAccessory)
| UnregisterPlatformAccessories (a : PlatformAccessory).

Section Platform.

(** [api.hap.uuid.generate] *)
Variable uuid_generate : string -> string.

Definition read_includeGate (config : PlatformConfig) : bool :=
  truthy (match options config with
          | Some o => includeGate o
          | None => JsUndefined
          end).

Definition read_treatGateAsGarage (config : PlatformConfig) : bool :=
  strict_ne_false (match options config with
                   | Some o => treatGateAsGarage o
                   | None => JsUndefined
                   end).

Definition isGarage (d : Device) : bool :=
  match DeviceType d with
  | Some t => (t =? "NexxGarage")%string
  | None => false
  end
  || existsb (String.eqb (ProductCode d)) ["NXG200"; "NXG300"].

Definition isGate (d : Device) : bool :=
  match DeviceType d with
  | Some t => (t =? "NexxGate")%string
  | None => false
  end
  || (ProductCode d =? "NXGT1")%string.

Definition choose_category (gate treatAsGarage : bool) : Categories :=
  if gate && treatAsGarage then GARAGE_DOOR_OPENER else GARAGE_DOOR_OPENER.

(** One turn of the loop over the devices: the uuid it pushes on
    [discoveredDeviceIds], if any, and what it does. *)
Definition discover_one (config : PlatformConfig)
    (accessories : list PlatformAccessory) (d : Device)
    : option string * list PlatformAction :=
  if negb (isGarage d) && negb (read_includeGate config && isGate d) then
    (None, [LogSkipping d])
  else
    let uuid := uuid_generate (DeviceId d) in
    let cat := choose_category (isGate d) (read_treatGateAsGarage config) in
    match find (fun a => (accessoryUUID a =? uuid)%string) accessories with
    | Some existing =>
        let a := mkAccessory (displayName existing) (accessoryUUID existing)
                   (category existing) (Some d) in
        (Some uuid,
         [LogRegistering d; LogRestoring (displayName existing);
          UpdatePlatformAccessories a; NewNXG200 a])
    | None =>
        let a := mkAccessory (DeviceNickName d) uuid cat (Some d) in
        (Some uuid,
         [LogRegistering d; LogAdding (DeviceNickName d);
          NewNXG200 a; RegisterPlatformAccessories a])
    end.

Fixpoint discover_loop (config : PlatformConfig)
    (accessories : list PlatformAccessory) (devices : list Device)
    : list string * list PlatformAction :=
  match devices with
  | [] => ([], [])
  | d :: rest =>
      let (u, acts) := discover_one config accessories d in
      let (us, acts') := discover_loop config accessories rest in
      (match u with Some x => x :: us | None => us end, acts ++ acts')
  end.

Definition unregister_missing (discovered : list string)
    (accessories : list PlatformAccessory) : list PlatformAction :=
  map UnregisterPlatformAccessories
    (filter (fun a =>
               negb (existsb (String.eqb (accessoryUUID a)) discovered))
            accessories).

(** [discoverDevices] once [getDevices()] has resolved to [devices]. *)
Definition discoverDevices (config : PlatformConfig)
    (accessories : list PlatformAccessory) (devices : list Device)
    : list PlatformAction :=
  let (discovered, acts) := discover_loop config accessories devices in
  acts ++ unregister_missing discovered accessories.

(** The categories under which [discoverDevices] registers. *)
Definition registered_categories (acts : list PlatformAction)
    : list Categories :=
  flat_map (fun a =>
              match a with
              | RegisterPlatformAccessories acc => [category acc]
              | _ => []
              end) acts.

End Platform.

(** * Observations and the specification's words *)

(** ** Reading a run *)

(** [awaits_nothing p w]: run from [w], [p] ends without a remote call. *)
Fixpoint awaits_nothing {A : Type} (p : Prog A) (w : World) : bool :=
  match p with
  | Ret _ | Throw _ => true
  | Get k => awaits_nothing (k w) w
  | Put w' k => awaits_nothing k w'
  | Await _ _ => false
  end.

(** What [await] makes of a settled promise. *)
Definition settle (r : ApiResult) : Result (option Device) :=
  match r with
  | Resolved d => Returned d
  | Rejected e => Threw e
  end.

(** The methods of the machine the accessory called, in order. *)
Definition fsm_ops (tr : list Event) : list FsmOp :=
  flat_map (fun e => match e with EvFsm op => [op] | _ => [] end) tr.

(** The remote calls issued, in order. *)
Definition api_calls (tr : list Event) : list ApiCall :=
  flat_map (fun e => match e with EvApi c => [c] | _ => [] end) tr.

(** The timers scheduled, in order. *)
Definition timeouts (tr : list Event) : list (TimerCallback * Z) :=
  flat_map (fun e => match e with EvSetTimeout cb ms => [(cb, ms)] | _ => [] end) tr.

(** What was logged at a level, in order. *)
Definition logged (level : LogLevel) (tr : list Event) : list Message :=
  flat_map (fun e =>
              match e, level with
              | EvLog Debug m, Debug | EvLog Info m, Info
              | EvLog Warn m, Warn | EvLog Error m, Error => [m]
              | _, _ => []
              end) tr.

(** What happened between two worlds of one run. *)
Definition events_since (w w' : World) : list Event :=
  skipn (length (trace w)) (trace w').

(** ** Reconciliation, in the words of the specification *)

(** The disagreement of the local state with the polled status
    (section 4.3, step 3). *)
Definition disagree (local : string) (remote : JsValue) : bool :=
  (local =? "open")%string && negb (is_Open remote)
  || (local =? "closed")%string && negb (is_Closed remote)
  || (local =? "stuck")%string && (is_Open remote || is_Closed remote).

(** Local state and polled status name the same terminal state. *)
Definition matches (local : string) (remote : JsValue) : bool :=
  (local =? "open")%string && is_Open remote
  || (local =? "closed")%string && is_Closed remote.

(** The reset dispatch table (section 4.3). *)
Definition dictated_reset (remote : JsValue) : FsmOp :=
  match remote with
  | JsNum 1 => OpResetOpen
  | JsNum 2 => OpResetClosed
  | _ => OpStuck
  end.

Definition apply_op (op : FsmOp) (f : FSM) : FSM :=
  match op with
  | OpResetOpen => Fsm.resetOpen f
  | OpResetClosed => Fsm.resetClosed f
  | OpStuck => Fsm.stuck f
  | OpOpen | OpClose => f
  end.

(** ** The worlds the reconciliation leaves *)

Definition reset_message (f : FSM) (d : Device) : Message :=
  match status_case (DeviceStatus d) with
  | IsOpen => MsgResetOpen f (DeviceStatus d) (LastOperationTimestamp d)
  | IsClosed => MsgResetClosed f (DeviceStatus d) (LastOperationTimestamp d)
  | IsOther => MsgFailedToUnderstand f (DeviceStatus d) (LastOperationTimestamp d)
  end.

(** The world [resetDeviceState d] leaves. *)
Definition reset_world (Date : string -> Timestamp) (d : Device) (w : World)
    : World :=
  let f := set_lastTransition (Date (LastOperationTimestamp d)) (fsm w) in
  mkWorld (apply_op (dictated_reset (DeviceStatus d)) f)
    (currentDoorState w) (timers w)
    (trace w ++ [EvLog Info (reset_message f d);
                 EvFsm (dictated_reset (DeviceStatus d))]).

(** The world once the guard has passed and the poll is issued. *)
Definition polling_world (w : World) : World :=
  record_event (EvApi (ApiGetDeviceState (deviceId (fsm w))))
    (record_event (EvLog Debug (MsgChecking (fsm w))) w).

(** The world once the poll has settled and its status is logged. *)
Definition polled_world (d : Device) (w : World) : World :=
  record_event (EvLog Debug (MsgApiStatus (DeviceStatus d))) (polling_world w).

(** ** The two branches of [setTargetDoorState] *)

(** The branch a value takes, and what the branch uses. *)
Definition request_direction (value : Z) : Direction :=
  if value =? TargetDoorState.OPEN then DirOpen else DirClose.

Definition moving_value (d : Direction) : Z :=
  match d with
  | DirOpen => CurrentDoorState.OPENING
  | DirClose => CurrentDoorState.CLOSING
  end.

Definition terminal_value (d : Direction) : Z :=
  match d with
  | DirOpen => CurrentDoorState.OPEN
  | DirClose => CurrentDoorState.CLOSED
  end.

Definition confirm (d : Direction) : TimerCallback :=
  match d with
  | DirOpen => ConfirmOpen
  | DirClose => ConfirmClosed
  end.

Definition command_op (d : Direction) : FsmOp :=
  match d with
  | DirOpen => OpOpen
  | DirClose => OpClose
  end.

Definition command_call (device : Device) (d : Direction) (id : string)
    : ApiCall :=
  match d with
  | DirOpen => ApiOpen id (deviceMeta device)
  | DirClose => ApiClose id (deviceMeta device)
  end.

Definition refusal (d : Direction) (f : FSM) : Message :=
  match d with
  | DirOpen => MsgAttemptOpenBut f
  | DirClose => MsgAttemptCloseBut f
  end.

(** The world a request leaves when it is suspended on its command. *)
Definition sent_world (device : Device) (value : Z) (w : World) : World :=
  let d := request_direction value in
  mkWorld (set_transitioning true (fsm w)) (Some (moving_value d)) (timers w)
    (trace w ++ [EvLog Debug (MsgSetTarget value (fsm w));
                 EvSetCurrentDoorState (moving_value d);
                 EvFsm (command_op d);
                 EvApi (command_call device d (deviceId (fsm w)))]).

(** ** Sample values for the concrete runs *)

Definition sample_fsm (s : string) (t : bool) : FSM :=
  mkFSM s t None "device-1" "uuid-1".

Definition sample_world (s : string) (t : bool) : World :=
  mkWorld (sample_fsm s t) None [] [].

Definition sample_loop (s : string) (t : bool) : Loop :=
  mkLoop (sample_world s t) [].

Definition sample_device (status : JsValue) (ts : string) : Device :=
  mkDevice "device-1" "Garage" status ts "NXG200" (Some "NexxGarage").

Definition sample_meta : JsValue :=
  JsObj [("DeviceType", JsStr "NexxGate"); ("ProductCode", JsStr "NXGT1")].

(** A fixed clock. *)
Definition sample_Date : string -> Timestamp := fun _ => Some 1000.

(** A remote side that rejects every call, and one that answers every
    call with the record [d]. *)
Definition never_answers : ApiCall -> ApiResult :=
  fun _ => Rejected (ApiError "offline").

Definition answers (d : Device) : ApiCall -> ApiResult :=
  fun _ => Resolved (Some d).

(** ** Reading what a discovery did *)

(** The devices [discoverDevices] goes on with: the negation of its
    [continue] test. *)
Definition accepted (config : PlatformConfig) (d : Device) : bool :=
  isGarage d || read_includeGate config && isGate d.

(** The accessories handed to [new NXG200], registered, updated and
    unregistered, in order. *)
Definition handled (acts : list PlatformAction) : list PlatformAccessory :=
  flat_map (fun a => match a with NewNXG200 acc => [acc] | _ => [] end) acts.

Definition registered (acts : list PlatformAction) : list PlatformAccessory :=
  flat_map (fun a =>
              match a with RegisterPlatformAccessories acc => [acc] | _ => [] end)
           acts.

Definition updated (acts : list PlatformAction) : list PlatformAccessory :=
  flat_map (fun a =>
              match a with UpdatePlatformAccessories acc => [acc] | _ => [] end)
           acts.

Definition unregistered (acts : list PlatformAction) : list PlatformAccessory :=
  flat_map (fun a =>
              match a with UnregisterPlatformAccessories acc => [acc] | _ => [] end)
           acts.


(** ** What the getters report *)

(** The answers of the three getters for a machine. *)
Definition reported_current (f : FSM) : Z :=
  if (state f =? "open")%string then
    if Fsm.isTransitioning f then CurrentDoorState.OPENING
    else CurrentDoorState.OPEN
  else if (state f =? "closed")%string then
    if Fsm.isTransitioning f then CurrentDoorState.CLOSING
    else CurrentDoorState.CLOSED
  else CurrentDoorState.STOPPED.

Definition reported_target (f : FSM) : Z :=
  if (state f =? "open")%string then TargetDoorState.OPEN
  else TargetDoorState.CLOSED.

(** The current state a device status stands for. *)
Definition status_shown (status : JsValue) : Z :=
  match status_case status with
  | IsOpen => CurrentDoorState.OPEN
  | IsClosed => CurrentDoorState.CLOSED
  | IsOther => CurrentDoorState.STOPPED
  end.

(** The intervals started, in order. *)
Definition intervals (tr : list Event) : list Z :=
  flat_map (fun e => match e with EvSetInterval ms => [ms] | _ => [] end) tr.

(** The device a remote call is about. *)
Definition call_id (c : ApiCall) : string :=
  match c with
  | ApiGetDeviceState id | ApiOpen id _ | ApiClose id _ => id
  end.

(** ** The accessory and its own device *)

(** The machine is addressed to [id] and every remote call recorded so
    far was about [id]. *)
Definition own_calls (id : string) (w : World) : Prop :=
  deviceId (fsm w) = id /\
  Forall (fun c => call_id c = id) (api_calls (trace w)).

(** Whatever the answer and whenever it comes, the rest of a suspended
    callback ends without another remote call and keeps [own_calls]. *)
Definition settles_quietly (id : string) (k : ApiResult -> Prog unit) : Prop :=
  forall r w,
    own_calls id w ->
    exists w' res, segment (k r) w = (w', Finished res) /\ own_calls id w'.

Definition loop_own_calls (id : string) (l : Loop) : Prop :=
  own_calls id (world l) /\
  Forall (fun ck => call_id (fst ck) = id /\ settles_quietly id (snd ck))
    (pending l).

(** What one callback does to a world that satisfies [own_calls]. *)
Definition callback_own_calls (id : string) (p : Prog unit) : Prop :=
  forall w,
    own_calls id w ->
    match segment p w with
    | (w', Finished _) => own_calls id w'
    | (w', Suspended c k) =>
        own_calls id w' /\ call_id c = id /\ settles_quietly id k
    end.

(** A run in which a poll and a command overlap, and where it ends. *)
Definition sample_stimuli : list Stimulus :=
  [IntervalFires; HomeKitSet TargetDoorState.OPEN;
   Settles 0 (Resolved (Some (sample_device GarageDoorState.Open "t1")));
   Settles 0 (Rejected (ApiError "offline"))].

Definition sample_run_end : Loop :=
  Eval vm_compute in
    match loop_run sample_Date (sample_device GarageDoorState.Closed "t0")
            sample_stimuli (sample_loop "closed" false) with
    | Some l => l
    | None => sample_loop "closed" false
    end.

(** A gate, a configuration with [includeGate] set, and a cached
    accessory, for the concrete discoveries. *)
Definition sample_gate : Device :=
  mkDevice "gate-1" "Gate" GarageDoorState.Closed "t0" "NXGT1" (Some "NexxGate").

Definition sample_config (includeGate_value : JsValue) : PlatformConfig :=
  mkConfig "Nexx" (Some (mkOptions includeGate_value JsUndefined)).

Definition sample_cached (uuid : string) : PlatformAccessory :=
  mkAccessory "Old door" uuid DOOR None.

(** * Properties *)

(** ** Running programs *)

Lemma exec_bind :
  forall (A B : Type) (p : Prog A) (f : A -> Prog B) remote w,
    exec (bind p f) remote w =
    match exec p remote w with
    | (w', Returned a) => exec (f a) remote w'
    | (w', Threw e) => (w', Threw e)
    end.
Proof.
  induction p as [a | e | k IH | w0 k IH | c k IH]; intros f remote w; simpl.
  - reflexivity.
  - reflexivity.
  - apply IH.
  - apply IH.
  - apply IH.
Qed.

Lemma exec_try_catch :
  forall (A : Type) (p : Prog A) (h : JsError -> Prog A) remote w,
    exec (try_catch p h) remote w =
    match exec p remote w with
    | (w', Returned a) => (w', Returned a)
    | (w', Threw e) => exec (h e) remote w'
    end.
Proof.
  induction p as [a | e | k IH | w0 k IH | c k IH]; intros h remote w; simpl.
  - reflexivity.
  - reflexivity.
  - apply IH.
  - apply IH.
  - apply IH.
Qed.

Lemma segment_awaits_nothing :
  forall (A : Type) (p : Prog A) remote w,
    awaits_nothing p w = true ->
    segment p w = (fst (exec p remote w), Finished (snd (exec p remote w))).
Proof.
  induction p as [a | e | k IH | w0 k IH | c k IH]; intros remote w H; simpl in *.
  - reflexivity.
  - reflexivity.
  - apply IH, H.
  - apply IH, H.
  - discriminate H.
Qed.

(** ** The characteristic getters *)

Ltac run_getter :=
  unfold getTargetDoorState, getCurrentDoorState, getObstructionDetected,
    log_fsm, log, state_is, read, modify; simpl.

(** C9: [getTargetDoorState] answers [TargetDoorState.OPEN] when the
    machine's state is [open], [TargetDoorState.CLOSED] when it is
    [closed], and [TargetDoorState.CLOSED] for every other state, [stuck]
    among them. *)
Theorem getTargetDoorState_by_state :
  forall remote w,
    let v := snd (exec getTargetDoorState remote w) in
    (state (fsm w) = "open" -> v = Returned TargetDoorState.OPEN) /\
    (state (fsm w) = "closed" -> v = Returned TargetDoorState.CLOSED) /\
    (state (fsm w) <> "open" -> state (fsm w) <> "closed" ->
     v = Returned TargetDoorState.CLOSED) /\
    (state (fsm w) = "stuck" -> v = Returned TargetDoorState.CLOSED).
Proof.
  intros remote w v; subst v; run_getter.
  destruct (String.eqb_spec (state (fsm w)) "open") as [Ho | Ho]; simpl.
  - rewrite Ho; repeat split; intros; congruence.
  - destruct (String.eqb_spec (state (fsm w)) "closed") as [Hc | Hc]; simpl;
      repeat split; intros; congruence.
Qed.

Lemma getTargetDoorState_by_state_witness :
  state (fsm (sample_world "stuck" false)) = "stuck" /\
  snd (exec getTargetDoorState never_answers (sample_world "stuck" false)) =
  Returned TargetDoorState.CLOSED.
Proof.
  split; [reflexivity |].
  apply (getTargetDoorState_by_state never_answers (sample_world "stuck" false)).
  reflexivity.
Defined.

(** C8: [getCurrentDoorState] is a function of the machine alone:
    [open] gives OPENING while transitioning and OPEN otherwise, [closed]
    gives CLOSING while transitioning and CLOSED otherwise, and every
    other state, [stuck] among them, gives STOPPED. *)
Theorem getCurrentDoorState_by_state :
  forall remote w,
    let v := snd (exec getCurrentDoorState remote w) in
    let s := state (fsm w) in
    let t := Fsm.isTransitioning (fsm w) in
    (s = "open" -> t = true -> v = Returned CurrentDoorState.OPENING) /\
    (s = "open" -> t = false -> v = Returned CurrentDoorState.OPEN) /\
    (s = "closed" -> t = true -> v = Returned CurrentDoorState.CLOSING) /\
    (s = "closed" -> t = false -> v = Returned CurrentDoorState.CLOSED) /\
    (s <> "open" -> s <> "closed" -> v = Returned CurrentDoorState.STOPPED) /\
    (s = "stuck" -> v = Returned CurrentDoorState.STOPPED).
Proof.
  intros remote w v s t; subst v s t; run_getter.
  destruct (String.eqb_spec (state (fsm w)) "open") as [Ho | Ho]; simpl.
  - rewrite Ho; repeat split; intros; try congruence;
      match goal with H : Fsm.isTransitioning _ = _ |- _ => rewrite H end;
      reflexivity.
  - destruct (String.eqb_spec (state (fsm w)) "closed") as [Hc | Hc]; simpl.
    + rewrite Hc; repeat split; intros; try congruence;
        match goal with H : Fsm.isTransitioning _ = _ |- _ => rewrite H end;
        reflexivity.
    + repeat split; intros; congruence.
Qed.

Lemma getCurrentDoorState_by_state_witness :
  state (fsm (sample_world "closed" true)) = "closed" /\
  Fsm.isTransitioning (fsm (sample_world "closed" true)) = true /\
  snd (exec getCurrentDoorState never_answers (sample_world "closed" true)) =
  Returned CurrentDoorState.CLOSING.
Proof.
  split; [reflexivity | split; [reflexivity |]].
  apply (getCurrentDoorState_by_state never_answers (sample_world "closed" true));
    reflexivity.
Defined.

(** ** The command adapter *)

Lemma exec_await :
  forall c remote w,
    exec (await c) remote w = (record_event (EvApi c) w, settle (remote c)).
Proof.
  intros c remote w; unfold await; simpl.
  destruct (remote c); reflexivity.
Qed.

(** C7: the adapter's [open] and [close] call the underlying client
    exactly once.  Without a metadata argument the call carries the
    device's [{DeviceType, ProductCode}]; with a metadata value (anything
    but [undefined] and [null]) it carries that value unchanged.  The
    outcome is the underlying call's, resolved or rejected, and nothing
    else in the world changes. *)
Theorem clientAdapter_defaults_metadata :
  forall device id devArg remote w,
    deviceMeta device =
      JsObj [("DeviceType", of_opt_string (DeviceType device));
             ("ProductCode", JsStr (ProductCode device))] /\
    exec (clientAdapter_open device id JsUndefined) remote w =
      (record_event (EvApi (ApiOpen id (deviceMeta device))) w,
       settle (remote (ApiOpen id (deviceMeta device)))) /\
    exec (clientAdapter_close device id JsUndefined) remote w =
      (record_event (EvApi (ApiClose id (deviceMeta device))) w,
       settle (remote (ApiClose id (deviceMeta device)))) /\
    (nullish devArg = false ->
     exec (clientAdapter_open device id devArg) remote w =
       (record_event (EvApi (ApiOpen id devArg)) w,
        settle (remote (ApiOpen id devArg))) /\
     exec (clientAdapter_close device id devArg) remote w =
       (record_event (EvApi (ApiClose id devArg)) w,
        settle (remote (ApiClose id devArg)))).
Proof.
  intros device id devArg remote w.
  unfold clientAdapter_open, clientAdapter_close.
  repeat split; try apply exec_await.
  - unfold nullish_coalesce; rewrite H; apply exec_await.
  - unfold nullish_coalesce; rewrite H; apply exec_await.
Qed.

Lemma clientAdapter_defaults_metadata_witness :
  nullish sample_meta = false /\
  exec (clientAdapter_open (sample_device GarageDoorState.Closed "t0")
          "device-1" sample_meta) never_answers (sample_world "closed" false) =
    (record_event (EvApi (ApiOpen "device-1" sample_meta))
       (sample_world "closed" false),
     Threw (ApiError "offline")).
Proof.
  split; [reflexivity |].
  apply (clientAdapter_defaults_metadata
           (sample_device GarageDoorState.Closed "t0") "device-1" sample_meta
           never_answers (sample_world "closed" false)).
  reflexivity.
Defined.

(** [null] counts as no metadata for [??]: the default is sent. *)
Lemma clientAdapter_null_is_defaulted :
  forall device id,
    clientAdapter_open device id JsNull =
    clientAdapter_open device id JsUndefined.
Proof. reflexivity. Qed.

(** ** Device discovery *)

Lemma choose_category_constant :
  forall gate treat, choose_category gate treat = GARAGE_DOOR_OPENER.
Proof. intros [] []; reflexivity. Qed.

Lemma registered_categories_app :
  forall l1 l2,
    registered_categories (l1 ++ l2) =
    registered_categories l1 ++ registered_categories l2.
Proof. intros l1 l2; unfold registered_categories; apply flat_map_app. Qed.

Lemma registered_categories_unregister :
  forall discovered accessories,
    registered_categories (unregister_missing discovered accessories) = [].
Proof.
  intros discovered accessories; unfold unregister_missing.
  induction (filter _ accessories) as [| a l IH]; simpl; [reflexivity | exact IH].
Qed.

Lemma discover_one_registers_garage :
  forall gen config accessories d,
    Forall (eq GARAGE_DOOR_OPENER)
      (registered_categories (snd (discover_one gen config accessories d))).
Proof.
  intros gen config accessories d; unfold discover_one.
  destruct (negb (isGarage d) && negb (read_includeGate config && isGate d));
    simpl; [constructor |].
  destruct (find _ accessories); simpl.
  - constructor.
  - rewrite choose_category_constant; repeat constructor.
Qed.

Lemma discover_loop_registers_garage :
  forall gen config accessories devices,
    Forall (eq GARAGE_DOOR_OPENER)
      (registered_categories (snd (discover_loop gen config accessories devices))).
Proof.
  intros gen config accessories devices.
  induction devices as [| d rest IH]; simpl; [constructor |].
  pose proof (discover_one_registers_garage gen config accessories d) as H1.
  destruct (discover_one gen config accessories d) as [u acts].
  destruct (discover_loop gen config accessories rest) as [us acts'].
  simpl in *; rewrite registered_categories_app.
  apply Forall_app; split; assumption.
Qed.

Lemma discover_one_ignores_treatGateAsGarage :
  forall gen nm g t1 t2 accessories d,
    discover_one gen (mkConfig nm (Some (mkOptions g t1))) accessories d =
    discover_one gen (mkConfig nm (Some (mkOptions g t2))) accessories d.
Proof.
  intros; unfold discover_one, read_includeGate; simpl.
  rewrite !choose_category_constant; reflexivity.
Qed.

(** C10: two configurations that differ only in [treatGateAsGarage] make
    [discoverDevices] do exactly the same, and under any configuration
    every accessory it registers has the category GARAGE_DOOR_OPENER. *)
Theorem category_ignores_treatGateAsGarage :
  forall gen nm g t1 t2 config accessories devices,
    discoverDevices gen (mkConfig nm (Some (mkOptions g t1))) accessories devices =
    discoverDevices gen (mkConfig nm (Some (mkOptions g t2))) accessories devices /\
    Forall (eq GARAGE_DOOR_OPENER)
      (registered_categories (discoverDevices gen config accessories devices)).
Proof.
  intros gen nm g t1 t2 config accessories devices; split.
  - unfold discoverDevices.
    assert (E : discover_loop gen (mkConfig nm (Some (mkOptions g t1)))
                  accessories devices =
                discover_loop gen (mkConfig nm (Some (mkOptions g t2)))
                  accessories devices).
    { induction devices as [| d rest IH]; simpl; [reflexivity |].
      rewrite (discover_one_ignores_treatGateAsGarage gen nm g t1 t2), IH.
      reflexivity. }
    rewrite E; reflexivity.
  - unfold discoverDevices.
    pose proof (discover_loop_registers_garage gen config accessories devices) as H.
    destruct (discover_loop gen config accessories devices) as [us acts].
    rewrite registered_categories_app, registered_categories_unregister, app_nil_r.
    exact H.
Qed.

(** A gate is registered as a garage door opener even when the user set
    [treatGateAsGarage] to [false]. *)
Example gate_registered_as_garage :
  registered_categories
    (discoverDevices (fun id => id)
       (mkConfig "Nexx" (Some (mkOptions (JsBool true) (JsBool false)))) []
       [mkDevice "gate-1" "Gate" GarageDoorState.Closed "t0" "NXGT1"
          (Some "NexxGate")]) =
  [GARAGE_DOOR_OPENER].
Proof. reflexivity. Qed.

(** ** Reading a trace *)

Lemma skipn_length_app :
  forall (A : Type) (l r : list A), skipn (length l) (l ++ r) = r.
Proof. induction l as [| x l IH]; intros r; simpl; [reflexivity | apply IH]. Qed.

Lemma events_since_app :
  forall w w' new, trace w' = trace w ++ new -> events_since w w' = new.
Proof.
  intros w w' new H; unfold events_since; rewrite H; apply skipn_length_app.
Qed.

(** ** Reconciliation *)

Lemma dictated_reset_case :
  forall v,
    dictated_reset v =
    match status_case v with
    | IsOpen => OpResetOpen
    | IsClosed => OpResetClosed
    | IsOther => OpStuck
    end.
Proof.
  intros v; destruct v as [| | b | n | s | l]; try reflexivity.
  destruct n as [| p | p]; try reflexivity.
  destruct p as [p | p |]; try reflexivity.
  destruct p as [p | p |]; reflexivity.
Qed.

Lemma exec_resetDeviceState :
  forall Date d remote w,
    exec (resetDeviceState Date d) remote w = (reset_world Date d w, Returned tt).
Proof.
  intros Date d remote w.
  unfold resetDeviceState, reset_world, reset_message, log_fsm, log, fsm_call,
    read, modify, record_event, with_fsm.
  rewrite dictated_reset_case.
  destruct (status_case (DeviceStatus d)); simpl; rewrite <- app_assoc; reflexivity.
Qed.

Lemma exec_reconcile_transitioning :
  forall Date remote w,
    Fsm.isTransitioning (fsm w) = true ->
    exec (reconcile Date) remote w =
    (record_event (EvLog Debug (MsgChecking (fsm w))) w, Returned tt).
Proof.
  intros Date remote w H.
  unfold reconcile, log_fsm, log, read, modify; simpl.
  rewrite H; reflexivity.
Qed.

Opaque resetDeviceState.

Lemma exec_reconcile_polled :
  forall Date d remote w,
    Fsm.isTransitioning (fsm w) = false ->
    remote (ApiGetDeviceState (deviceId (fsm w))) = Resolved (Some d) ->
    exec (reconcile Date) remote w =
    (if disagree (state (fsm w)) (DeviceStatus d)
     then reset_world Date d (polled_world d w)
     else polled_world d w,
     Returned tt).
Proof.
  intros Date d remote w Ht Hr.
  unfold reconcile, log_fsm, log, state_is, read, modify, await; simpl.
  rewrite Ht; simpl; rewrite Hr; simpl.
  unfold disagree, polled_world.
  destruct (state (fsm w) =? "open")%string eqn:Eo;
    destruct (is_Open (DeviceStatus d)) eqn:Io; simpl;
    try (rewrite exec_resetDeviceState; reflexivity);
    rewrite ?Eo; simpl;
    (destruct (state (fsm w) =? "closed")%string eqn:Ec;
     destruct (is_Closed (DeviceStatus d)) eqn:Ic; simpl;
     try (rewrite exec_resetDeviceState; reflexivity);
     rewrite ?Ec; simpl;
     (destruct (state (fsm w) =? "stuck")%string eqn:Es; simpl;
      try (rewrite exec_resetDeviceState; reflexivity);
      reflexivity)).
Qed.

(** A firing whose guard passed is suspended on its poll; what it does
    when the poll settles depends on the state and the status then, and
    not on [transitioning]: the guard is not looked at again. *)
Lemma reconcile_resumes_unguarded :
  forall Date w,
    Fsm.isTransitioning (fsm w) = false ->
    exists k,
      segment (reconcile Date) w =
        (polling_world w, Suspended (ApiGetDeviceState (deviceId (fsm w))) k) /\
      forall d remote w2,
        exec (k (Resolved (Some d))) remote w2 =
        (if disagree (state (fsm w2)) (DeviceStatus d)
         then reset_world Date d
                (record_event (EvLog Debug (MsgApiStatus (DeviceStatus d))) w2)
         else record_event (EvLog Debug (MsgApiStatus (DeviceStatus d))) w2,
         Returned tt).
Proof.
  intros Date w Ht.
  unfold reconcile, log_fsm, log, state_is, read, modify, await; simpl.
  rewrite Ht; simpl.
  eexists; split; [reflexivity |].
  intros d remote w2; simpl; unfold disagree.
  destruct (state (fsm w2) =? "open")%string eqn:Eo;
    destruct (is_Open (DeviceStatus d)) eqn:Io; simpl;
    try (rewrite exec_resetDeviceState; reflexivity);
    rewrite ?Eo; simpl;
    (destruct (state (fsm w2) =? "closed")%string eqn:Ec;
     destruct (is_Closed (DeviceStatus d)) eqn:Ic; simpl;
     try (rewrite exec_resetDeviceState; reflexivity);
     rewrite ?Ec; simpl;
     (destruct (state (fsm w2) =? "stuck")%string eqn:Es; simpl;
      try (rewrite exec_resetDeviceState; reflexivity);
      reflexivity)).
Qed.

Lemma exec_constructor :
  forall Date dev uuid fresh remote w,
    exec (constructor Date dev uuid fresh) remote w =
    (record_event (EvSetInterval 60000)
       (record_event (EvSetCharacteristic "Name" (DeviceNickName dev))
          (record_event (EvSetCharacteristic "SerialNumber" (DeviceId dev))
             (record_event (EvSetCharacteristic "Model" (ProductCode dev))
                (record_event (EvSetCharacteristic "Manufacturer" "Nexx")
                   (reset_world Date dev
                      (with_fsm (set_platformUUID uuid
                                   (set_deviceId (DeviceId dev) fresh)) w)))))),
     Returned tt).
Proof.
  intros Date dev uuid fresh remote w.
  unfold constructor, modify; simpl.
  rewrite exec_bind, exec_resetDeviceState.
  reflexivity.
Qed.

Transparent resetDeviceState.

Lemma trace_polled_world :
  forall d w,
    trace (polled_world d w) =
    trace w ++ [EvLog Debug (MsgChecking (fsm w));
                EvApi (ApiGetDeviceState (deviceId (fsm w)));
                EvLog Debug (MsgApiStatus (DeviceStatus d))].
Proof. intros d w; simpl; rewrite <- !app_assoc; reflexivity. Qed.

Lemma trace_reset_polled_world :
  forall Date d w,
    trace (reset_world Date d (polled_world d w)) =
    trace w ++ [EvLog Debug (MsgChecking (fsm w));
                EvApi (ApiGetDeviceState (deviceId (fsm w)));
                EvLog Debug (MsgApiStatus (DeviceStatus d));
                EvLog Info
                  (reset_message
                     (set_lastTransition (Date (LastOperationTimestamp d)) (fsm w))
                     d);
                EvFsm (dictated_reset (DeviceStatus d))].
Proof. intros Date d w; simpl; rewrite <- !app_assoc; reflexivity. Qed.

Lemma apply_reset_fields :
  forall v f,
    lastTransition (apply_op (dictated_reset v) f) = lastTransition f /\
    deviceId (apply_op (dictated_reset v) f) = deviceId f /\
    transitioning (apply_op (dictated_reset v) f) = false.
Proof.
  intros v f; rewrite dictated_reset_case.
  destruct (status_case v); repeat split.
Qed.

(** After the reset the remote status dictates, local and remote agree. *)
Lemma disagree_after_reset :
  forall v f, disagree (state (apply_op (dictated_reset v) f)) v = false.
Proof.
  intros v f; rewrite dictated_reset_case.
  unfold disagree, is_Open, is_Closed.
  destruct (status_case v); reflexivity.
Qed.

(** The machine a firing leaves when the guard passed and the poll
    answered [d]. *)
Lemma fsm_after_reconcile :
  forall Date d remote w,
    Fsm.isTransitioning (fsm w) = false ->
    remote (ApiGetDeviceState (deviceId (fsm w))) = Resolved (Some d) ->
    fsm (fst (exec (reconcile Date) remote w)) =
    (if disagree (state (fsm w)) (DeviceStatus d)
     then apply_op (dictated_reset (DeviceStatus d))
            (set_lastTransition (Date (LastOperationTimestamp d)) (fsm w))
     else fsm w).
Proof.
  intros Date d remote w Ht Hr.
  rewrite (exec_reconcile_polled Date d remote w Ht Hr).
  destruct (disagree (state (fsm w)) (DeviceStatus d)); reflexivity.
Qed.

Lemma ops_of_reconcile :
  forall Date d remote w,
    Fsm.isTransitioning (fsm w) = false ->
    remote (ApiGetDeviceState (deviceId (fsm w))) = Resolved (Some d) ->
    fsm_ops (events_since w (fst (exec (reconcile Date) remote w))) =
    (if disagree (state (fsm w)) (DeviceStatus d)
     then [dictated_reset (DeviceStatus d)]
     else []).
Proof.
  intros Date d remote w Ht Hr.
  rewrite (exec_reconcile_polled Date d remote w Ht Hr).
  destruct (disagree (state (fsm w)) (DeviceStatus d)); cbv beta iota; unfold fst.
  - erewrite events_since_app by apply trace_reset_polled_world; reflexivity.
  - erewrite events_since_app by apply trace_polled_world; reflexivity.
Qed.

(** C1 (as the code has it): a firing of the reconciliation callback that
    finds [isTransitioning()] true when it starts ends at once: it issues
    no remote call, calls no method of the machine, logs no reset and
    leaves the machine as it was. *)
Theorem reconcile_skips_when_transitioning :
  forall Date remote w,
    Fsm.isTransitioning (fsm w) = true ->
    let w' := fst (exec (reconcile Date) remote w) in
    segment (reconcile Date) w = (w', Finished (Returned tt)) /\
    (forall device p,
       loop_step Date device IntervalFires (mkLoop w p) = Some (mkLoop w' p)) /\
    fsm w' = fsm w /\
    api_calls (events_since w w') = [] /\
    fsm_ops (events_since w w') = [] /\
    logged Info (events_since w w') = [].
Proof.
  intros Date remote w Ht w'; subst w'.
  rewrite (exec_reconcile_transitioning Date remote w Ht).
  assert (Hs : segment (reconcile Date) w =
               (record_event (EvLog Debug (MsgChecking (fsm w))) w,
                Finished (Returned tt))).
  { unfold reconcile, log_fsm, log, read, modify; simpl.
    rewrite Ht; reflexivity. }
  unfold fst.
  assert (He : events_since w (record_event (EvLog Debug (MsgChecking (fsm w))) w)
               = [EvLog Debug (MsgChecking (fsm w))])
    by (apply events_since_app; reflexivity).
  rewrite He; repeat split; try assumption.
  intros device p; unfold loop_step, run_callback.
  change (world (mkLoop w p)) with w.
  rewrite Hs; reflexivity.
Qed.

Lemma reconcile_skips_when_transitioning_witness :
  Fsm.isTransitioning (fsm (sample_world "open" true)) = true /\
  fsm (fst (exec (reconcile sample_Date)
              (answers (sample_device GarageDoorState.Closed "t1"))
              (sample_world "open" true))) =
  fsm (sample_world "open" true).
Proof.
  split; [reflexivity |].
  apply (reconcile_skips_when_transitioning sample_Date
           (answers (sample_device GarageDoorState.Closed "t1"))
           (sample_world "open" true)).
  reflexivity.
Defined.

(** C1 as stated fails: a firing starts while the machine is [closed] and
    idle, so the guard passes and the poll is issued; before the poll
    settles HomeKit asks to open, and [fsm.open()] sets [transitioning];
    the poll then settles with [Open] and the firing resets the machine,
    logging a machine that is transitioning, while the command is still
    in flight. *)
Lemma correction_runs_during_transition :
  option_map (fun l => Fsm.isTransitioning (fsm (world l)))
    (loop_run sample_Date (sample_device GarageDoorState.Closed "t0")
       [IntervalFires; HomeKitSet TargetDoorState.OPEN]
       (sample_loop "closed" false)) = Some true /\
  option_map (fun l => (skipn 6 (trace (world l)), fsm (world l),
                        map fst (pending l)))
    (loop_run sample_Date (sample_device GarageDoorState.Closed "t0")
       [IntervalFires; HomeKitSet TargetDoorState.OPEN;
        Settles 0 (Resolved (Some (sample_device GarageDoorState.Open "t1")))]
       (sample_loop "closed" false)) =
  Some ([EvLog Debug (MsgApiStatus GarageDoorState.Open);
         EvLog Info
           (MsgResetOpen (mkFSM "closed" true (Some 1000) "device-1" "uuid-1")
              GarageDoorState.Open "t1");
         EvFsm OpResetOpen],
        mkFSM "open" false (Some 1000) "device-1" "uuid-1",
        [ApiOpen "device-1"
           (deviceMeta (sample_device GarageDoorState.Closed "t0"))]).
Proof. split; vm_compute; reflexivity. Qed.

Lemma ops_of_constructor :
  forall Date dev uuid fresh remote w,
    fsm_ops (events_since w
      (fst (exec (constructor Date dev uuid fresh) remote w))) =
    [dictated_reset (DeviceStatus dev)].
Proof.
  intros Date dev uuid fresh remote w.
  rewrite exec_constructor; unfold fst.
  erewrite events_since_app
    by (simpl; rewrite <- !app_assoc; reflexivity).
  reflexivity.
Qed.

(** C2 (as the code has it): in a firing whose guard passed, a reset is
    applied exactly when local state and polled status disagree; the
    constructor applies one whatever the fresh machine's state is.  In
    both the method called is the one the status dictates ([Open]:
    [resetOpen], [Closed]: [resetClosed], anything else: [stuck]) and
    [lastTransition] becomes the time of the record's
    [LastOperationTimestamp]. *)
Theorem reset_dictated_by_remote :
  forall Date d remote w dev uuid fresh,
    Fsm.isTransitioning (fsm w) = false ->
    remote (ApiGetDeviceState (deviceId (fsm w))) = Resolved (Some d) ->
    let w' := fst (exec (reconcile Date) remote w) in
    let w0 := fst (exec (constructor Date dev uuid fresh) remote w) in
    (disagree (state (fsm w)) (DeviceStatus d) = true ->
     fsm_ops (events_since w w') = [dictated_reset (DeviceStatus d)] /\
     fsm w' = apply_op (dictated_reset (DeviceStatus d))
                (set_lastTransition (Date (LastOperationTimestamp d)) (fsm w)) /\
     lastTransition (fsm w') = Date (LastOperationTimestamp d)) /\
    (disagree (state (fsm w)) (DeviceStatus d) = false ->
     fsm_ops (events_since w w') = [] /\ fsm w' = fsm w) /\
    fsm_ops (events_since w w0) = [dictated_reset (DeviceStatus dev)] /\
    fsm w0 = apply_op (dictated_reset (DeviceStatus dev))
               (set_lastTransition (Date (LastOperationTimestamp dev))
                  (set_platformUUID uuid (set_deviceId (DeviceId dev) fresh))) /\
    lastTransition (fsm w0) = Date (LastOperationTimestamp dev).
Proof.
  intros Date d remote w dev uuid fresh Ht Hr w' w0; subst w' w0.
  rewrite (ops_of_reconcile Date d remote w Ht Hr).
  rewrite (fsm_after_reconcile Date d remote w Ht Hr).
  rewrite ops_of_constructor, exec_constructor.
  split; [| split; [| split; [| split]]].
  - intros Hd; rewrite Hd; repeat split.
    apply (apply_reset_fields (DeviceStatus d)).
  - intros Hd; rewrite Hd; split; reflexivity.
  - reflexivity.
  - reflexivity.
  - apply (apply_reset_fields (DeviceStatus dev)).
Qed.

Lemma reset_dictated_by_remote_witness :
  Fsm.isTransitioning (fsm (sample_world "open" false)) = false /\
  disagree (state (fsm (sample_world "open" false))) GarageDoorState.Closed = true /\
  fsm (fst (exec (reconcile sample_Date)
              (answers (sample_device GarageDoorState.Closed "t1"))
              (sample_world "open" false))) =
  mkFSM "closed" false (Some 1000) "device-1" "uuid-1".
Proof.
  split; [reflexivity | split; [reflexivity |]].
  apply (reset_dictated_by_remote sample_Date
           (sample_device GarageDoorState.Closed "t1")
           (answers (sample_device GarageDoorState.Closed "t1"))
           (sample_world "open" false)
           (sample_device GarageDoorState.Closed "t1") "uuid-1"
           (sample_fsm "open" false)); reflexivity.
Defined.

(** C2 as stated fails at initial setup: a fresh machine that is [closed]
    and a device that reports [Closed] do not disagree, and the
    constructor calls [resetClosed] all the same. *)
Lemma setup_resets_without_disagreement :
  disagree (state (sample_fsm "closed" false)) GarageDoorState.Closed = false /\
  fsm_ops (trace (fst (exec
    (constructor sample_Date (sample_device GarageDoorState.Closed "t1")
       "uuid-1" (sample_fsm "closed" false))
    never_answers (sample_world "closed" false)))) = [OpResetClosed].
Proof. split; vm_compute; reflexivity. Qed.

(** Whatever state the fresh machine has, some device record agrees with
    it and is reset all the same. *)
Lemma setup_resets_whatever_the_fresh_state :
  forall Date uuid fresh remote w,
    exists dev,
      disagree (state fresh) (DeviceStatus dev) = false /\
      fsm_ops (events_since w
        (fst (exec (constructor Date dev uuid fresh) remote w))) <> [].
Proof.
  intros Date uuid fresh remote w.
  assert (Hops : forall dev,
    fsm_ops (events_since w
      (fst (exec (constructor Date dev uuid fresh) remote w))) <> []).
  { intros dev; rewrite ops_of_constructor; discriminate. }
  destruct (state fresh =? "open")%string eqn:Eo.
  - exists (sample_device GarageDoorState.Open "t").
    split; [| apply Hops].
    unfold disagree; rewrite Eo.
    apply String.eqb_eq in Eo; rewrite Eo; reflexivity.
  - destruct (state fresh =? "closed")%string eqn:Ec.
    + exists (sample_device GarageDoorState.Closed "t").
      split; [| apply Hops].
      unfold disagree; rewrite Eo, Ec; simpl.
      apply String.eqb_eq in Ec; rewrite Ec; reflexivity.
    + exists (sample_device JsUndefined "t").
      split; [| apply Hops].
      unfold disagree; rewrite Eo, Ec; simpl.
      apply andb_false_r.
Qed.

Lemma matches_no_disagree :
  forall local remote, matches local remote = true -> disagree local remote = false.
Proof.
  intros local remote; unfold matches, disagree, is_Open, is_Closed.
  destruct (String.eqb_spec local "open") as [-> | Ho]; simpl.
  - destruct (status_case remote); simpl; congruence.
  - destruct (String.eqb_spec local "closed") as [-> | Hc]; simpl.
    + destruct (status_case remote); simpl; congruence.
    + discriminate.
Qed.

(** C6: with the machine idle, a second firing that polls the same
    status as the first calls no method of the machine and leaves it as
    the first firing left it; and a firing that finds local state and
    polled status in agreement already changes nothing itself. *)
Theorem reconcile_idempotent :
  forall Date d d2 remote remote2 w,
    Fsm.isTransitioning (fsm w) = false ->
    remote (ApiGetDeviceState (deviceId (fsm w))) = Resolved (Some d) ->
    remote2 (ApiGetDeviceState (deviceId (fsm w))) = Resolved (Some d2) ->
    DeviceStatus d2 = DeviceStatus d ->
    let w1 := fst (exec (reconcile Date) remote w) in
    let w2 := fst (exec (reconcile Date) remote2 w1) in
    fsm w2 = fsm w1 /\
    fsm_ops (events_since w1 w2) = [] /\
    (disagree (state (fsm w)) (DeviceStatus d) = false ->
     fsm w1 = fsm w /\ fsm_ops (events_since w w1) = []) /\
    (matches (state (fsm w)) (DeviceStatus d) = true ->
     fsm w1 = fsm w /\ fsm_ops (events_since w w1) = []).
Proof.
  intros Date d d2 remote remote2 w Ht Hr Hr2 Hs w1 w2.
  assert (H1 : fsm w1 =
               if disagree (state (fsm w)) (DeviceStatus d)
               then apply_op (dictated_reset (DeviceStatus d))
                      (set_lastTransition (Date (LastOperationTimestamp d)) (fsm w))
               else fsm w)
    by (apply fsm_after_reconcile; assumption).
  assert (Hops : fsm_ops (events_since w w1) =
                 if disagree (state (fsm w)) (DeviceStatus d)
                 then [dictated_reset (DeviceStatus d)] else [])
    by (apply ops_of_reconcile; assumption).
  assert (Hquiet : disagree (state (fsm w)) (DeviceStatus d) = false ->
                   fsm w1 = fsm w /\ fsm_ops (events_since w w1) = []).
  { intros Hd; rewrite Hd in H1, Hops; split; assumption. }
  assert (Hid : deviceId (fsm w1) = deviceId (fsm w)).
  { rewrite H1; destruct (disagree (state (fsm w)) (DeviceStatus d));
      [| reflexivity].
    destruct (apply_reset_fields (DeviceStatus d)
                (set_lastTransition (Date (LastOperationTimestamp d)) (fsm w)))
      as (_ & Hi & _).
    rewrite Hi; reflexivity. }
  assert (Ht1 : Fsm.isTransitioning (fsm w1) = false).
  { rewrite H1; destruct (disagree (state (fsm w)) (DeviceStatus d));
      [| exact Ht].
    apply (apply_reset_fields (DeviceStatus d)). }
  assert (Hd1 : disagree (state (fsm w1)) (DeviceStatus d2) = false).
  { rewrite Hs, H1.
    destruct (disagree (state (fsm w)) (DeviceStatus d)) eqn:Hd;
      [apply disagree_after_reset | exact Hd]. }
  assert (Hr1 : remote2 (ApiGetDeviceState (deviceId (fsm w1))) =
                Resolved (Some d2))
    by (rewrite Hid; exact Hr2).
  repeat split.
  - subst w2; rewrite (fsm_after_reconcile Date d2 remote2 w1 Ht1 Hr1), Hd1.
    reflexivity.
  - subst w2; rewrite (ops_of_reconcile Date d2 remote2 w1 Ht1 Hr1), Hd1.
    reflexivity.
  - apply Hquiet; assumption.
  - apply Hquiet; assumption.
  - apply Hquiet, matches_no_disagree; assumption.
  - apply Hquiet, matches_no_disagree; assumption.
Qed.

Lemma reconcile_idempotent_witness :
  Fsm.isTransitioning (fsm (sample_world "stuck" false)) = false /\
  fsm (fst (exec (reconcile sample_Date)
              (answers (sample_device GarageDoorState.Open "t2"))
              (fst (exec (reconcile sample_Date)
                      (answers (sample_device GarageDoorState.Open "t1"))
                      (sample_world "stuck" false))))) =
  fsm (fst (exec (reconcile sample_Date)
              (answers (sample_device GarageDoorState.Open "t1"))
              (sample_world "stuck" false))).
Proof.
  split; [reflexivity |].
  apply (reconcile_idempotent sample_Date
           (sample_device GarageDoorState.Open "t1")
           (sample_device GarageDoorState.Open "t2")
           (answers (sample_device GarageDoorState.Open "t1"))
           (answers (sample_device GarageDoorState.Open "t2"))
           (sample_world "stuck" false)); reflexivity.
Defined.

(** ** Commands from HomeKit *)

(** The guard is false: nothing is sent, the timer is set. *)
Lemma exec_setTarget_refused :
  forall device value remote w,
    let d := request_direction value in
    Fsm.can d (fsm w) = false ->
    exec (setTargetDoorState device value) remote w =
    (mkWorld (fsm w) (Some (moving_value d))
       (timers w ++ [(confirm d, 12000)])
       (trace w ++ [EvLog Debug (MsgSetTarget value (fsm w));
                    EvSetCurrentDoorState (moving_value d);
                    EvLog Warn (refusal d (fsm w));
                    EvSetTimeout (confirm d) 12000]),
     Returned tt).
Proof.
  intros device value remote w d Hc; subst d.
  unfold request_direction in *.
  unfold setTargetDoorState, setCurrentDoorState, setTimeout, log_fsm, log,
    read, modify, record_event; simpl.
  destruct (value =? TargetDoorState.OPEN); simpl in *;
    rewrite Hc; simpl; rewrite <- !app_assoc; reflexivity.
Qed.

(** The guard is true and the remote call resolves: the machine is left
    transitioning and the timer is set. *)
Lemma exec_setTarget_sent :
  forall device value remote w r,
    let d := request_direction value in
    Fsm.can d (fsm w) = true ->
    remote (command_call device d (deviceId (fsm w))) = Resolved r ->
    exec (setTargetDoorState device value) remote w =
    (mkWorld (set_transitioning true (fsm w)) (Some (moving_value d))
       (timers w ++ [(confirm d, 12000)])
       (trace w ++ [EvLog Debug (MsgSetTarget value (fsm w));
                    EvSetCurrentDoorState (moving_value d);
                    EvFsm (command_op d);
                    EvApi (command_call device d (deviceId (fsm w)));
                    EvSetTimeout (confirm d) 12000]),
     Returned tt).
Proof.
  intros device value remote w r d Hc Hr; subst d.
  unfold request_direction in *.
  unfold setTargetDoorState, fsm_open, fsm_close, fsm_command,
    clientAdapter_open, clientAdapter_close, await, setCurrentDoorState,
    setTimeout, log_fsm, log, read, modify, record_event, with_fsm; simpl.
  destruct (value =? TargetDoorState.OPEN); simpl in *;
    rewrite Hc; simpl; unfold nullish_coalesce; simpl; rewrite Hr; simpl;
    rewrite <- !app_assoc; reflexivity.
Qed.

(** The guard is true and the remote call rejects: the error is caught,
    the machine is stuck, STOPPED is shown and no timer is set. *)
Lemma exec_setTarget_failed :
  forall device value remote w e,
    let d := request_direction value in
    Fsm.can d (fsm w) = true ->
    remote (command_call device d (deviceId (fsm w))) = Rejected e ->
    exec (setTargetDoorState device value) remote w =
    (mkWorld (Fsm.stuck (fsm w)) (Some CurrentDoorState.STOPPED)
       (timers w)
       (trace w ++ [EvLog Debug (MsgSetTarget value (fsm w));
                    EvSetCurrentDoorState (moving_value d);
                    EvFsm (command_op d);
                    EvApi (command_call device d (deviceId (fsm w)));
                    EvLog Error (MsgProblem (Fsm.stuck (fsm w)) e);
                    EvFsm OpStuck;
                    EvSetCurrentDoorState CurrentDoorState.STOPPED]),
     Returned tt).
Proof.
  intros device value remote w e d Hc Hr; subst d.
  unfold request_direction in *.
  unfold setTargetDoorState, fsm_open, fsm_close, fsm_command, fsm_call,
    clientAdapter_open, clientAdapter_close, await, setCurrentDoorState,
    setTimeout, log_fsm, log, read, modify, record_event, with_fsm; simpl.
  destruct (value =? TargetDoorState.OPEN); simpl in *;
    rewrite Hc; simpl; unfold nullish_coalesce; simpl; rewrite Hr; simpl;
    rewrite <- !app_assoc; reflexivity.
Qed.

(** A request whose guard passed is suspended on its command.  Whatever
    happened in between, a rejection is caught (machine stuck, STOPPED
    shown, no timer) and a resolution sets the timer; neither sends
    anything more. *)
Lemma setTarget_resumes :
  forall device value w,
    let d := request_direction value in
    Fsm.can d (fsm w) = true ->
    exists k,
      segment (setTargetDoorState device value) w =
        (sent_world device value w,
         Suspended (command_call device d (deviceId (fsm w))) k) /\
      (forall e remote w2,
         exec (k (Rejected e)) remote w2 =
         (mkWorld (Fsm.stuck (fsm w2)) (Some CurrentDoorState.STOPPED)
            (timers w2)
            (trace w2 ++ [EvLog Error (MsgProblem (Fsm.stuck (fsm w2)) e);
                          EvFsm OpStuck;
                          EvSetCurrentDoorState CurrentDoorState.STOPPED]),
          Returned tt)) /\
      (forall r remote w2,
         exec (k (Resolved r)) remote w2 =
         (mkWorld (fsm w2) (currentDoorState w2)
            (timers w2 ++ [(confirm d, 12000)])
            (trace w2 ++ [EvSetTimeout (confirm d) 12000]),
          Returned tt)).
Proof.
  intros device value w d Hc; subst d.
  unfold sent_world, request_direction in *.
  unfold setTargetDoorState, fsm_open, fsm_close, fsm_command, fsm_call,
    clientAdapter_open, clientAdapter_close, await, setCurrentDoorState,
    setTimeout, log_fsm, log, read, modify, record_event, with_fsm; simpl.
  destruct (value =? TargetDoorState.OPEN); simpl in *;
    rewrite Hc; simpl; unfold nullish_coalesce; simpl;
    (eexists; split;
     [unfold record_event; simpl; rewrite <- !app_assoc; reflexivity |]);
    split; intros; simpl; rewrite <- ?app_assoc; reflexivity.
Qed.

Lemma exec_run_timer :
  forall d remote w,
    exec (run_timer (confirm d)) remote w =
    (mkWorld (fsm w) (Some (terminal_value d)) (timers w)
       (trace w ++ [EvSetCurrentDoorState (terminal_value d);
                    EvLog Debug (match d with
                                 | DirOpen => MsgTransitionedOpen
                                 | DirClose => MsgTransitionedClosed
                                 end)]),
     Returned tt).
Proof.
  intros d remote w.
  unfold run_timer, setCurrentDoorState, log, modify, record_event.
  destruct d; simpl; rewrite <- !app_assoc; reflexivity.
Qed.

Lemma run_timer_awaits_nothing :
  forall cb w, awaits_nothing (run_timer cb) w = true.
Proof. intros [] w; reflexivity. Qed.

(** A request sets at most one timer, the one of its own direction. *)
Lemma timeouts_of_request :
  forall device value remote w,
    let d := request_direction value in
    let new := timeouts (events_since w
                 (fst (exec (setTargetDoorState device value) remote w))) in
    new = [] \/ new = [(confirm d, 12000)].
Proof.
  intros device value remote w d new; subst new.
  destruct (Fsm.can d (fsm w)) eqn:Hc.
  - destruct (remote (command_call device d (deviceId (fsm w)))) as [r | e] eqn:Hr.
    + right.
      rewrite (exec_setTarget_sent device value remote w r Hc Hr); unfold fst.
      erewrite events_since_app by reflexivity.
      reflexivity.
    + left.
      rewrite (exec_setTarget_failed device value remote w e Hc Hr); unfold fst.
      erewrite events_since_app by reflexivity.
      reflexivity.
  - right.
    rewrite (exec_setTarget_refused device value remote w Hc); unfold fst.
    erewrite events_since_app by reflexivity.
    reflexivity.
Qed.

(** C3 (as the code has it): a request sets the 12-second timer when the
    command it sent resolved and also when it sent none because [can()]
    was false; it sets none when the command was rejected. *)
Theorem confirmation_timer_unless_command_fails :
  forall device value remote w,
    let d := request_direction value in
    let call := command_call device d (deviceId (fsm w)) in
    let w' := fst (exec (setTargetDoorState device value) remote w) in
    (Fsm.can d (fsm w) = true ->
     (forall e, remote call = Rejected e ->
        timers w' = timers w /\ timeouts (events_since w w') = []) /\
     (forall r, remote call = Resolved r ->
        timers w' = timers w ++ [(confirm d, 12000)] /\
        api_calls (events_since w w') = [call]) /\
     (exists k,
        segment (setTargetDoorState device value) w =
          (sent_world device value w, Suspended call k) /\
        forall remote2 w2,
          (forall e, timers (fst (exec (k (Rejected e)) remote2 w2)) = timers w2) /\
          (forall r, timers (fst (exec (k (Resolved r)) remote2 w2)) =
                     timers w2 ++ [(confirm d, 12000)]))) /\
    (Fsm.can d (fsm w) = false ->
     timers w' = timers w ++ [(confirm d, 12000)] /\
     api_calls (events_since w w') = [] /\
     fsm w' = fsm w).
Proof.
  intros device value remote w d call w'; subst call w'; split.
  - intros Hc; split; [| split].
    + intros e Hr.
      rewrite (exec_setTarget_failed device value remote w e Hc Hr); unfold fst.
      erewrite events_since_app by reflexivity.
      split; reflexivity.
    + intros r Hr.
      rewrite (exec_setTarget_sent device value remote w r Hc Hr); unfold fst.
      erewrite events_since_app by reflexivity.
      split; reflexivity.
    + destruct (setTarget_resumes device value w Hc) as (k & Hs & Hrej & Hres).
      exists k; split; [exact Hs |].
      intros remote2 w2; split.
      * intros e; rewrite Hrej; reflexivity.
      * intros r; rewrite Hres; reflexivity.
  - intros Hc.
    rewrite (exec_setTarget_refused device value remote w Hc); unfold fst.
    erewrite events_since_app by reflexivity.
    repeat split; reflexivity.
Qed.

Lemma confirmation_timer_unless_command_fails_witness :
  Fsm.can (request_direction TargetDoorState.OPEN)
    (fsm (sample_world "closed" false)) = true /\
  timers (fst (exec
    (setTargetDoorState (sample_device GarageDoorState.Closed "t0")
       TargetDoorState.OPEN)
    never_answers (sample_world "closed" false))) =
  timers (sample_world "closed" false).
Proof.
  split; [reflexivity |].
  exact (proj1 (proj1 (proj1
           (confirmation_timer_unless_command_fails
              (sample_device GarageDoorState.Closed "t0") TargetDoorState.OPEN
              never_answers (sample_world "closed" false))
           eq_refl) (ApiError "offline") eq_refl)).
Defined.

(** C3 as stated fails: the door is [open] and idle and HomeKit asks to
    open it.  [can('open')] is false, no command is sent, and the timer
    is set all the same; when it fires the current state shown becomes
    OPEN. *)
Lemma timer_fires_without_command :
  Fsm.can DirOpen (fsm (sample_world "open" false)) = false /\
  option_map (fun l => (timers (world l), api_calls (trace (world l))))
    (loop_run sample_Date (sample_device GarageDoorState.Open "t0")
       [HomeKitSet TargetDoorState.OPEN] (sample_loop "open" false)) =
  Some ([(ConfirmOpen, 12000)], []) /\
  option_map (fun l => (currentDoorState (world l),
                        api_calls (trace (world l)),
                        skipn 4 (trace (world l))))
    (loop_run sample_Date (sample_device GarageDoorState.Open "t0")
       [HomeKitSet TargetDoorState.OPEN; TimerFires 0]
       (sample_loop "open" false)) =
  Some (Some CurrentDoorState.OPEN, [],
        [EvSetCurrentDoorState CurrentDoorState.OPEN;
         EvLog Debug MsgTransitionedOpen]).
Proof. repeat split; vm_compute; reflexivity. Qed.

(** C4: the timer a request sets is the one of the requested value, and
    when it fires, in whatever world, it shows the terminal value of that
    request (OPEN for OPEN, CLOSED for CLOSED) and logs: it awaits
    nothing, so it issues no remote call, and it neither reads nor
    changes the machine. *)
Theorem confirmation_is_unconditional :
  forall device value remote w remote2 w2,
    let d := request_direction value in
    let w' := fst (exec (setTargetDoorState device value) remote w) in
    let w3 := fst (exec (run_timer (confirm d)) remote2 w2) in
    (value = TargetDoorState.OPEN ->
     terminal_value d = CurrentDoorState.OPEN) /\
    (value = TargetDoorState.CLOSED ->
     terminal_value d = CurrentDoorState.CLOSED) /\
    (timeouts (events_since w w') = [] \/
     timeouts (events_since w w') = [(confirm d, 12000)]) /\
    segment (run_timer (confirm d)) w2 = (w3, Finished (Returned tt)) /\
    currentDoorState w3 = Some (terminal_value d) /\
    fsm w3 = fsm w2 /\
    api_calls (events_since w2 w3) = [] /\
    fsm_ops (events_since w2 w3) = [].
Proof.
  intros device value remote w remote2 w2 d w' w3.
  split; [intros ->; reflexivity |].
  split; [intros ->; reflexivity |].
  split; [apply timeouts_of_request |].
  split.
  - subst w3.
    rewrite (segment_awaits_nothing unit (run_timer (confirm d)) remote2 w2
               (run_timer_awaits_nothing (confirm d) w2)).
    rewrite exec_run_timer; reflexivity.
  - subst w3; rewrite exec_run_timer; unfold fst.
    erewrite events_since_app by reflexivity.
    repeat split; reflexivity.
Qed.

Lemma confirmation_is_unconditional_witness :
  TargetDoorState.OPEN = TargetDoorState.OPEN /\
  terminal_value (request_direction TargetDoorState.OPEN) =
  CurrentDoorState.OPEN.
Proof.
  split; [reflexivity |].
  exact (proj1 (confirmation_is_unconditional
                  (sample_device GarageDoorState.Closed "t0")
                  TargetDoorState.OPEN never_answers
                  (sample_world "closed" false) never_answers
                  (sample_world "stuck" true)) eq_refl).
Defined.

(** The displayed state after the timer fires is the same for any two
    machines and any pending calls. *)
Lemma confirmation_ignores_machine :
  forall Date device cb ms f1 f2 shown tr p1 p2 l1 l2,
    loop_step Date device (TimerFires 0)
      (mkLoop (mkWorld f1 shown [(cb, ms)] tr) p1) = Some l1 ->
    loop_step Date device (TimerFires 0)
      (mkLoop (mkWorld f2 shown [(cb, ms)] tr) p2) = Some l2 ->
    currentDoorState (world l1) = currentDoorState (world l2) /\
    fsm (world l1) = f1 /\ fsm (world l2) = f2 /\
    pending l1 = p1 /\ pending l2 = p2.
Proof.
  intros Date device cb ms f1 f2 shown tr p1 p2 l1 l2 H1 H2.
  destruct cb; simpl in H1, H2;
    injection H1 as <-; injection H2 as <-; repeat split.
Qed.

(** C5: when the remote call of a request rejects, the request still
    returns; the machine is [stuck] and idle, STOPPED is shown, the error
    is logged once at error level, the remote side was called exactly
    once, and no timer is set. *)
Theorem command_failure_is_absorbed :
  forall device value remote w e,
    let d := request_direction value in
    let call := command_call device d (deviceId (fsm w)) in
    Fsm.can d (fsm w) = true ->
    remote call = Rejected e ->
    let w' := fst (exec (setTargetDoorState device value) remote w) in
    snd (exec (setTargetDoorState device value) remote w) = Returned tt /\
    state (fsm w') = "stuck" /\
    Fsm.isTransitioning (fsm w') = false /\
    currentDoorState w' = Some CurrentDoorState.STOPPED /\
    logged Error (events_since w w') = [MsgProblem (fsm w') e] /\
    api_calls (events_since w w') = [call] /\
    In OpStuck (fsm_ops (events_since w w')) /\
    timers w' = timers w /\
    (exists k,
       segment (setTargetDoorState device value) w =
         (sent_world device value w, Suspended call k) /\
       forall remote2 w2,
         let w3 := fst (exec (k (Rejected e)) remote2 w2) in
         snd (exec (k (Rejected e)) remote2 w2) = Returned tt /\
         state (fsm w3) = "stuck" /\
         Fsm.isTransitioning (fsm w3) = false /\
         currentDoorState w3 = Some CurrentDoorState.STOPPED /\
         logged Error (events_since w2 w3) = [MsgProblem (fsm w3) e] /\
         api_calls (events_since w2 w3) = [] /\
         timers w3 = timers w2).
Proof.
  intros device value remote w e d call Hc Hr w'; subst w' call.
  rewrite (exec_setTarget_failed device value remote w e Hc Hr).
  cbn [fst snd].
  erewrite events_since_app by reflexivity.
  do 8 (split; [simpl; auto |]).
  destruct (setTarget_resumes device value w Hc) as (k & Hs & Hrej & _).
  exists k; split; [exact Hs |].
  intros remote2 w2; rewrite Hrej; cbn [fst snd].
  erewrite events_since_app by reflexivity.
  repeat split.
Qed.

Lemma command_failure_is_absorbed_witness :
  Fsm.can (request_direction TargetDoorState.CLOSED)
    (fsm (sample_world "open" false)) = true /\
  snd (exec (setTargetDoorState (sample_device GarageDoorState.Open "t0")
               TargetDoorState.CLOSED)
         never_answers (sample_world "open" false)) = Returned tt.
Proof.
  split; [reflexivity |].
  apply (command_failure_is_absorbed
           (sample_device GarageDoorState.Open "t0") TargetDoorState.CLOSED
           never_answers (sample_world "open" false) (ApiError "offline")
           eq_refl eq_refl).
Defined.

(** * Further properties *)

(** ** Discovery: which devices are handled *)

Lemma skip_test_is_not_accepted :
  forall config d,
    negb (isGarage d) && negb (read_includeGate config && isGate d) =
    negb (accepted config d).
Proof. intros config d; unfold accepted; rewrite negb_orb; reflexivity. Qed.

Lemma discover_one_skipped :
  forall gen config accessories d,
    accepted config d = false ->
    discover_one gen config accessories d = (None, [LogSkipping d]).
Proof.
  intros gen config accessories d H; unfold discover_one.
  rewrite skip_test_is_not_accepted, H; reflexivity.
Qed.

Lemma discover_one_restored :
  forall gen config accessories d existing,
    accepted config d = true ->
    find (fun a => (accessoryUUID a =? gen (DeviceId d))%string) accessories =
      Some existing ->
    discover_one gen config accessories d =
    (Some (gen (DeviceId d)),
     let a := mkAccessory (displayName existing) (accessoryUUID existing)
                (category existing) (Some d) in
     [LogRegistering d; LogRestoring (displayName existing);
      UpdatePlatformAccessories a; NewNXG200 a]).
Proof.
  intros gen config accessories d existing H Hf; unfold discover_one.
  rewrite skip_test_is_not_accepted, H; simpl; rewrite Hf; reflexivity.
Qed.

Lemma discover_one_added :
  forall gen config accessories d,
    accepted config d = true ->
    find (fun a => (accessoryUUID a =? gen (DeviceId d))%string) accessories =
      None ->
    discover_one gen config accessories d =
    (Some (gen (DeviceId d)),
     let a := mkAccessory (DeviceNickName d) (gen (DeviceId d))
                GARAGE_DOOR_OPENER (Some d) in
     [LogRegistering d; LogAdding (DeviceNickName d);
      NewNXG200 a; RegisterPlatformAccessories a]).
Proof.
  intros gen config accessories d H Hf; unfold discover_one.
  rewrite skip_test_is_not_accepted, H; simpl; rewrite Hf.
  rewrite choose_category_constant; reflexivity.
Qed.

(** The uuids the loop collects are those of the accepted devices. *)
Lemma discovered_uuids :
  forall gen config accessories devices,
    fst (discover_loop gen config accessories devices) =
    map (fun d => gen (DeviceId d)) (filter (accepted config) devices).
Proof.
  intros gen config accessories devices.
  induction devices as [| d rest IH]; simpl; [reflexivity |].
  destruct (discover_loop gen config accessories rest) as [us acts'].
  simpl in IH; subst us.
  destruct (accepted config d) eqn:Ha.
  - destruct (find (fun a => (accessoryUUID a =? gen (DeviceId d))%string)
                accessories) as [existing |] eqn:Hf.
    + rewrite (discover_one_restored gen config accessories d existing Ha Hf).
      reflexivity.
    + rewrite (discover_one_added gen config accessories d Ha Hf).
      reflexivity.
  - rewrite (discover_one_skipped gen config accessories d Ha); reflexivity.
Qed.

(** What the loop does is what each turn does, in order. *)
Lemma discover_loop_actions :
  forall gen config accessories devices,
    snd (discover_loop gen config accessories devices) =
    flat_map (fun d => snd (discover_one gen config accessories d)) devices.
Proof.
  intros gen config accessories devices.
  induction devices as [| d rest IH]; simpl; [reflexivity |].
  destruct (discover_one gen config accessories d) as [u acts].
  destruct (discover_loop gen config accessories rest) as [us acts'].
  simpl in *; rewrite IH; reflexivity.
Qed.

Lemma discoverDevices_unfold :
  forall gen config accessories devices,
    discoverDevices gen config accessories devices =
    flat_map (fun d => snd (discover_one gen config accessories d)) devices ++
    unregister_missing
      (map (fun d => gen (DeviceId d)) (filter (accepted config) devices))
      accessories.
Proof.
  intros gen config accessories devices; unfold discoverDevices.
  rewrite <- (discovered_uuids gen config accessories devices).
  rewrite <- (discover_loop_actions gen config accessories devices).
  destruct (discover_loop gen config accessories devices); reflexivity.
Qed.


Lemma unregistered_unregister :
  forall discovered accessories,
    unregistered (unregister_missing discovered accessories) =
    filter (fun a => negb (existsb (String.eqb (accessoryUUID a)) discovered))
      accessories.
Proof.
  intros discovered accessories; unfold unregister_missing.
  induction (filter _ accessories) as [| a l IH]; simpl;
    [reflexivity | rewrite IH; reflexivity].
Qed.

Lemma unregistered_discover_one :
  forall gen config accessories d,
    unregistered (snd (discover_one gen config accessories d)) = [].
Proof.
  intros gen config accessories d.
  destruct (accepted config d) eqn:Ha.
  - destruct (find (fun a => (accessoryUUID a =? gen (DeviceId d))%string)
                accessories) as [existing |] eqn:Hf.
    + rewrite (discover_one_restored gen config accessories d existing Ha Hf).
      reflexivity.
    + rewrite (discover_one_added gen config accessories d Ha Hf).
      reflexivity.
  - rewrite (discover_one_skipped gen config accessories d Ha); reflexivity.
Qed.

Lemma existsb_eqb_In :
  forall (s : string) (l : list string),
    existsb (String.eqb s) l = true <-> In s l.
Proof.
  intros s l; rewrite existsb_exists; split.
  - intros (x & Hin & Heq); apply String.eqb_eq in Heq; subst x; exact Hin.
  - intros Hin; exists s; split; [exact Hin | apply String.eqb_refl].
Qed.


Lemma in_handled :
  forall a acts, In a (handled acts) <-> In (NewNXG200 a) acts.
Proof.
  intros a acts; unfold handled; rewrite in_flat_map; split.
  - intros (x & Hin & Hx); destruct x; simpl in Hx; try contradiction.
    destruct Hx as [-> | []]; exact Hin.
  - intros Hin; exists (NewNXG200 a); split; [exact Hin | left; reflexivity].
Qed.

Lemma in_registered :
  forall a acts,
    In a (registered acts) <-> In (RegisterPlatformAccessories a) acts.
Proof.
  intros a acts; unfold registered; rewrite in_flat_map; split.
  - intros (x & Hin & Hx); destruct x; simpl in Hx; try contradiction.
    destruct Hx as [-> | []]; exact Hin.
  - intros Hin; exists (RegisterPlatformAccessories a);
      split; [exact Hin | left; reflexivity].
Qed.

Lemma in_updated :
  forall a acts,
    In a (updated acts) <-> In (UpdatePlatformAccessories a) acts.
Proof.
  intros a acts; unfold updated; rewrite in_flat_map; split.
  - intros (x & Hin & Hx); destruct x; simpl in Hx; try contradiction.
    destruct Hx as [-> | []]; exact Hin.
  - intros Hin; exists (UpdatePlatformAccessories a);
      split; [exact Hin | left; reflexivity].
Qed.

Lemma in_unregistered :
  forall a acts,
    In a (unregistered acts) <-> In (UnregisterPlatformAccessories a) acts.
Proof.
  intros a acts; unfold unregistered; rewrite in_flat_map; split.
  - intros (x & Hin & Hx); destruct x; simpl in Hx; try contradiction.
    destruct Hx as [-> | []]; exact Hin.
  - intros Hin; exists (UnregisterPlatformAccessories a);
      split; [exact Hin | left; reflexivity].
Qed.

(** Where an action of a discovery comes from. *)
Lemma in_discoverDevices :
  forall gen config accessories devices act,
    In act (discoverDevices gen config accessories devices) <->
    (exists d, In d devices /\
               In act (snd (discover_one gen config accessories d))) \/
    In act (unregister_missing
              (map (fun d => gen (DeviceId d)) (filter (accepted config) devices))
              accessories).
Proof.
  intros gen config accessories devices act.
  rewrite discoverDevices_unfold, in_app_iff, in_flat_map; reflexivity.
Qed.

Lemma in_unregister_missing :
  forall discovered accessories act,
    In act (unregister_missing discovered accessories) <->
    exists a, act = UnregisterPlatformAccessories a /\
              In a accessories /\ ~ In (accessoryUUID a) discovered.
Proof.
  intros discovered accessories act; unfold unregister_missing.
  rewrite in_map_iff; split.
  - intros (a & <- & Hin); apply filter_In in Hin as [Hin Hb].
    exists a; repeat split; [exact Hin |].
    intros Hd; apply existsb_eqb_In in Hd; rewrite Hd in Hb; discriminate.
  - intros (a & -> & Hin & Hn); exists a; split; [reflexivity |].
    apply filter_In; split; [exact Hin |].
    destruct (existsb (String.eqb (accessoryUUID a)) discovered) eqn:He;
      [| reflexivity].
    apply existsb_eqb_In in He; contradiction.
Qed.

(** The three ways a turn of the loop can go. *)
Lemma discover_one_cases :
  forall gen config accessories d,
    (accepted config d = false /\
     discover_one gen config accessories d = (None, [LogSkipping d])) \/
    (accepted config d = true /\
     exists existing,
       In existing accessories /\
       accessoryUUID existing = gen (DeviceId d) /\
       discover_one gen config accessories d =
       (Some (gen (DeviceId d)),
        [LogRegistering d; LogRestoring (displayName existing);
         UpdatePlatformAccessories
           (mkAccessory (displayName existing) (accessoryUUID existing)
              (category existing) (Some d));
         NewNXG200
           (mkAccessory (displayName existing) (accessoryUUID existing)
              (category existing) (Some d))])) \/
    (accepted config d = true /\
     (forall c, In c accessories -> accessoryUUID c <> gen (DeviceId d)) /\
     discover_one gen config accessories d =
     (Some (gen (DeviceId d)),
      [LogRegistering d; LogAdding (DeviceNickName d);
       NewNXG200
         (mkAccessory (DeviceNickName d) (gen (DeviceId d))
            GARAGE_DOOR_OPENER (Some d));
       RegisterPlatformAccessories
         (mkAccessory (DeviceNickName d) (gen (DeviceId d))
            GARAGE_DOOR_OPENER (Some d))])).
Proof.
  intros gen config accessories d.
  destruct (accepted config d) eqn:Ha.
  - destruct (find (fun a => (accessoryUUID a =? gen (DeviceId d))%string)
                accessories) as [existing |] eqn:Hf.
    + right; left; split; [reflexivity |].
      exists existing.
      apply find_some in Hf as Hs; destruct Hs as [Hin Heq].
      apply String.eqb_eq in Heq.
      repeat split; [exact Hin | exact Heq |].
      apply (discover_one_restored gen config accessories d existing Ha Hf).
    + right; right; split; [reflexivity |]; split.
      * intros c Hin Heq.
        pose proof (find_none _ _ Hf c Hin) as Hb; simpl in Hb.
        rewrite Heq, String.eqb_refl in Hb; discriminate.
      * apply (discover_one_added gen config accessories d Ha Hf).
  - left; split; [reflexivity |].
    apply (discover_one_skipped gen config accessories d Ha).
Qed.


(** X13: every accessory handed to a handler carries a device record,
    and its UUID is the one generated from that record's [DeviceId],
    whether the accessory is new or came from the cache. *)
Theorem handler_uuid_is_generated :
  forall gen config accessories devices a,
    In a (handled (discoverDevices gen config accessories devices)) ->
    exists d,
      In d devices /\
      context_device a = Some d /\
      accessoryUUID a = gen (DeviceId d).
Proof.
  intros gen config accessories devices a Hin.
  apply in_handled, in_discoverDevices in Hin.
  destruct Hin as [(d & Hd & Hact) | Hun].
  - exists d; split; [exact Hd |].
    destruct (discover_one_cases gen config accessories d)
      as [(_ & E) | [(_ & ex & _ & Hu & E) | (_ & _ & E)]];
      rewrite E in Hact; simpl in Hact.
    + destruct Hact as [H | []]; discriminate H.
    + destruct Hact as [H | [H | [H | [H | []]]]]; try discriminate H.
      injection H as <-; split; [reflexivity | exact Hu].
    + destruct Hact as [H | [H | [H | [H | []]]]]; try discriminate H.
      injection H as <-; split; reflexivity.
  - apply in_unregister_missing in Hun as (c & Hc & _); discriminate Hc.
Qed.

Lemma handler_uuid_is_generated_witness :
  exists d,
    In d [sample_gate] /\
    context_device
      (mkAccessory "Gate" "uuid:gate-1" GARAGE_DOOR_OPENER (Some sample_gate)) =
      Some d /\
    "uuid:gate-1" = ("uuid:" ++ DeviceId d)%string.
Proof.
  apply (handler_uuid_is_generated (fun id => ("uuid:" ++ id)%string)
           (sample_config (JsBool true)) [] [sample_gate]
           (mkAccessory "Gate" "uuid:gate-1" GARAGE_DOOR_OPENER
              (Some sample_gate))).
  left; reflexivity.
Defined.

Lemma unregistered_iff_not_discovered_aux :
  forall gen config accessories devices a,
    In a (unregistered (discoverDevices gen config accessories devices)) ->
    ~ exists d, In d devices /\ accepted config d = true /\
                gen (DeviceId d) = accessoryUUID a.
Proof.
  intros gen config accessories devices a Hin.
  apply in_unregistered, in_discoverDevices in Hin.
  destruct Hin as [(d & Hd & Hact) | Hun].
  - exfalso.
    assert (Hu : In a (unregistered (snd (discover_one gen config accessories d))))
      by (apply in_unregistered; exact Hact).
    rewrite unregistered_discover_one in Hu; exact Hu.
  - apply in_unregister_missing in Hun as (c & Hc & Hin & Hn).
    injection Hc as ->.
    intros (d & Hd & Ha & Hu); apply Hn.
    apply in_map_iff; exists d; split; [exact Hu |].
    apply filter_In; split; assumption.
Qed.


(** X15: a discovery never registers an accessory under a UUID that is
    in the cache, and never unregisters an accessory whose UUID it has
    just restored. *)
Theorem no_duplicate_registration :
  forall gen config accessories devices,
    let acts := discoverDevices gen config accessories devices in
    (forall r c, In r (registered acts) -> In c accessories ->
                 accessoryUUID c <> accessoryUUID r) /\
    (forall u c, In u (updated acts) -> In c (unregistered acts) ->
                 accessoryUUID c <> accessoryUUID u).
Proof.
  intros gen config accessories devices acts; subst acts; split.
  - intros r c Hr Hc.
    apply in_registered, in_discoverDevices in Hr.
    destruct Hr as [(d & Hd & Hact) | Hun].
    + destruct (discover_one_cases gen config accessories d)
        as [(_ & E) | [(_ & ex & _ & _ & E) | (_ & Hnew & E)]];
        rewrite E in Hact; simpl in Hact.
      * destruct Hact as [H | []]; discriminate H.
      * destruct Hact as [H | [H | [H | [H | []]]]]; discriminate H.
      * destruct Hact as [H | [H | [H | [H | []]]]]; try discriminate H.
        injection H as <-; apply Hnew, Hc.
    + apply in_unregister_missing in Hun as (x & Hx & _); discriminate Hx.
  - intros u c Hu Hc Heq.
    apply unregistered_iff_not_discovered_aux in Hc.
    apply in_updated, in_discoverDevices in Hu.
    destruct Hu as [(d & Hd & Hact) | Hun].
    + destruct (discover_one_cases gen config accessories d)
        as [(_ & E) | [(Ha & ex & _ & Hid & E) | (_ & _ & E)]];
        rewrite E in Hact; simpl in Hact.
      * destruct Hact as [H | []]; discriminate H.
      * destruct Hact as [H | [H | [H | [H | []]]]]; try discriminate H.
        injection H as <-; simpl in Heq.
        apply Hc; exists d; repeat split; [exact Hd | exact Ha |].
        rewrite Heq; symmetry; exact Hid.
      * destruct Hact as [H | [H | [H | [H | []]]]]; discriminate H.
    + apply in_unregister_missing in Hun as (x & Hx & _); discriminate Hx.
Qed.

(** X16: when the remote side lists no device, the discovery does one
    thing only: it unregisters every cached accessory, in cache order. *)
Theorem empty_list_unregisters_all :
  forall gen config accessories,
    discoverDevices gen config accessories [] =
    map UnregisterPlatformAccessories accessories.
Proof.
  intros gen config accessories.
  rewrite discoverDevices_unfold; simpl; unfold unregister_missing.
  f_equal.
  induction accessories as [| a rest IH]; simpl; [reflexivity |].
  f_equal; exact IH.
Qed.

(** X17: restoring an accessory from the cache keeps its display name,
    UUID and category as cached (the category is not recomputed) and
    replaces the device record in its context by the one just listed. *)
Theorem restore_keeps_cached_identity :
  forall gen config accessories devices u,
    In u (updated (discoverDevices gen config accessories devices)) ->
    In u (handled (discoverDevices gen config accessories devices)) /\
    exists c d,
      In c accessories /\ In d devices /\
      displayName u = displayName c /\
      accessoryUUID u = accessoryUUID c /\
      category u = category c /\
      context_device u = Some d /\
      accessoryUUID c = gen (DeviceId d).
Proof.
  intros gen config accessories devices u Hu.
  apply in_updated, in_discoverDevices in Hu.
  destruct Hu as [(d & Hd & Hact) | Hun].
  - destruct (discover_one_cases gen config accessories d)
      as [(_ & E) | [(Ha & ex & Hex & Hid & E) | (_ & _ & E)]];
      rewrite E in Hact; simpl in Hact.
    + destruct Hact as [H | []]; discriminate H.
    + destruct Hact as [H | [H | [H | [H | []]]]]; try discriminate H.
      injection H as <-; split.
      * apply in_handled, in_discoverDevices; left.
        exists d; split; [exact Hd |].
        rewrite E; simpl; auto.
      * exists ex, d; repeat split; assumption.
    + destruct Hact as [H | [H | [H | [H | []]]]]; discriminate H.
  - apply in_unregister_missing in Hun as (x & Hx & _); discriminate Hx.
Qed.

Lemma restore_keeps_cached_identity_witness :
  exists c d,
    In c [sample_cached "uuid:gate-1"] /\ In d [sample_gate] /\
    displayName (mkAccessory "Old door" "uuid:gate-1" DOOR (Some sample_gate)) =
      displayName c /\
    accessoryUUID (mkAccessory "Old door" "uuid:gate-1" DOOR (Some sample_gate)) =
      accessoryUUID c /\
    category (mkAccessory "Old door" "uuid:gate-1" DOOR (Some sample_gate)) =
      category c /\
    context_device (mkAccessory "Old door" "uuid:gate-1" DOOR (Some sample_gate)) =
      Some d /\
    accessoryUUID c = ("uuid:" ++ DeviceId d)%string.
Proof.
  apply (restore_keeps_cached_identity (fun id => ("uuid:" ++ id)%string)
           (sample_config (JsBool true)) [sample_cached "uuid:gate-1"]
           [sample_gate]
           (mkAccessory "Old door" "uuid:gate-1" DOOR (Some sample_gate))).
  cbv; left; reflexivity.
Defined.





(** ** The getters *)

Lemma exec_getCurrentDoorState :
  forall remote w,
    exec getCurrentDoorState remote w =
    (record_event (EvLog Debug (MsgGetCurrent (fsm w))) w,
     Returned (reported_current (fsm w))).
Proof.
  intros remote w; unfold reported_current; run_getter.
  destruct (state (fsm w) =? "open")%string; simpl; [reflexivity |].
  destruct (state (fsm w) =? "closed")%string; reflexivity.
Qed.

Lemma exec_getTargetDoorState :
  forall remote w,
    exec getTargetDoorState remote w =
    (record_event (EvLog Debug (MsgGetTarget (fsm w))) w,
     Returned (reported_target (fsm w))).
Proof.
  intros remote w; unfold reported_target; run_getter.
  destruct (state (fsm w) =? "open")%string; simpl; [reflexivity |].
  destruct (state (fsm w) =? "closed")%string; reflexivity.
Qed.

Lemma exec_getObstructionDetected :
  forall remote w,
    exec getObstructionDetected remote w =
    (record_event (EvLog Debug (MsgGetObstruction (fsm w))) w,
     Returned (state (fsm w) =? "stuck")%string).
Proof. intros remote w; run_getter; reflexivity. Qed.

Lemma getters_await_nothing :
  forall w,
    awaits_nothing getCurrentDoorState w = true /\
    awaits_nothing getTargetDoorState w = true /\
    awaits_nothing getObstructionDetected w = true.
Proof.
  intros w; run_getter.
  destruct (state (fsm w) =? "open")%string; simpl; [repeat split |].
  destruct (state (fsm w) =? "closed")%string; repeat split.
Qed.

Lemma events_since_record :
  forall e w, events_since w (record_event e w) = [e].
Proof. intros e w; apply events_since_app; reflexivity. Qed.

(** X1: the three getters only read: each logs one debug line and
    nothing else happens.  No remote call is awaited, no method of the
    machine is called, and the machine, the displayed state and the
    timers are as before. *)
Theorem getters_only_log :
  forall remote w,
    let wc := fst (exec getCurrentDoorState remote w) in
    let wt := fst (exec getTargetDoorState remote w) in
    let wo := fst (exec getObstructionDetected remote w) in
    (events_since w wc = [EvLog Debug (MsgGetCurrent (fsm w))] /\
     events_since w wt = [EvLog Debug (MsgGetTarget (fsm w))] /\
     events_since w wo = [EvLog Debug (MsgGetObstruction (fsm w))]) /\
    (fsm wc = fsm w /\ fsm wt = fsm w /\ fsm wo = fsm w) /\
    (currentDoorState wc = currentDoorState w /\
     currentDoorState wt = currentDoorState w /\
     currentDoorState wo = currentDoorState w) /\
    (timers wc = timers w /\ timers wt = timers w /\ timers wo = timers w) /\
    (segment getCurrentDoorState w =
       (wc, Finished (snd (exec getCurrentDoorState remote w))) /\
     segment getTargetDoorState w =
       (wt, Finished (snd (exec getTargetDoorState remote w))) /\
     segment getObstructionDetected w =
       (wo, Finished (snd (exec getObstructionDetected remote w)))).
Proof.
  intros remote w wc wt wo.
  destruct (getters_await_nothing w) as (Hc & Ht & Ho).
  split; [| split; [| split; [| split]]].
  - subst wc wt wo.
    rewrite exec_getCurrentDoorState, exec_getTargetDoorState,
      exec_getObstructionDetected; cbn [fst].
    rewrite !events_since_record; repeat split.
  - subst wc wt wo.
    rewrite exec_getCurrentDoorState, exec_getTargetDoorState,
      exec_getObstructionDetected; repeat split.
  - subst wc wt wo.
    rewrite exec_getCurrentDoorState, exec_getTargetDoorState,
      exec_getObstructionDetected; repeat split.
  - subst wc wt wo.
    rewrite exec_getCurrentDoorState, exec_getTargetDoorState,
      exec_getObstructionDetected; repeat split.
  - subst wc wt wo; split; [| split].
    + apply (segment_awaits_nothing Z getCurrentDoorState remote w Hc).
    + apply (segment_awaits_nothing Z getTargetDoorState remote w Ht).
    + apply (segment_awaits_nothing bool getObstructionDetected remote w Ho).
Qed.

(** X2: [getObstructionDetected] answers true exactly when the state is
    [stuck]; whenever it answers true, [getCurrentDoorState] answers
    STOPPED and [getTargetDoorState] answers CLOSED; and for a machine in
    one of the states [open], [closed], [stuck] the current state is
    STOPPED only if an obstruction is reported. *)
Theorem obstruction_agrees_with_state :
  forall remote w,
    let ob := snd (exec getObstructionDetected remote w) in
    let cur := snd (exec getCurrentDoorState remote w) in
    let tgt := snd (exec getTargetDoorState remote w) in
    (ob = Returned true <-> state (fsm w) = "stuck") /\
    (ob = Returned true \/ ob = Returned false) /\
    (ob = Returned true ->
     cur = Returned CurrentDoorState.STOPPED /\
     tgt = Returned TargetDoorState.CLOSED) /\
    (state (fsm w) = "open" \/ state (fsm w) = "closed" \/
     state (fsm w) = "stuck" ->
     cur = Returned CurrentDoorState.STOPPED -> ob = Returned true).
Proof.
  intros remote w ob cur tgt; subst ob cur tgt.
  rewrite exec_getObstructionDetected, exec_getCurrentDoorState,
    exec_getTargetDoorState; cbn [snd].
  unfold reported_current, reported_target.
  destruct (String.eqb_spec (state (fsm w)) "stuck") as [Hs | Hs].
  - rewrite Hs; simpl; repeat split; auto.
  - split; [split; [discriminate | contradiction] |].
    split; [right; reflexivity |].
    split; [discriminate |].
    intros [Ho | [Hc | Hk]]; [| | contradiction].
    + rewrite Ho; simpl.
      destruct (Fsm.isTransitioning (fsm w)); discriminate.
    + rewrite Hc; simpl.
      destruct (Fsm.isTransitioning (fsm w)); discriminate.
Qed.

Lemma obstruction_agrees_with_state_witness :
  snd (exec getObstructionDetected never_answers (sample_world "stuck" false)) =
    Returned true /\
  snd (exec getCurrentDoorState never_answers (sample_world "stuck" false)) =
    Returned CurrentDoorState.STOPPED /\
  snd (exec getTargetDoorState never_answers (sample_world "stuck" false)) =
    Returned TargetDoorState.CLOSED.
Proof.
  split; [reflexivity |].
  apply (obstruction_agrees_with_state never_answers (sample_world "stuck" false)).
  reflexivity.
Defined.

(** ** Reconciliation: failed polls and what a firing leaves alone *)

Lemma exec_reconcile_poll_fails :
  forall Date remote w,
    Fsm.isTransitioning (fsm w) = false ->
    (forall e,
       remote (ApiGetDeviceState (deviceId (fsm w))) = Rejected e ->
       exec (reconcile Date) remote w = (polling_world w, Threw e)) /\
    (remote (ApiGetDeviceState (deviceId (fsm w))) = Resolved None ->
     exists err, exec (reconcile Date) remote w = (polling_world w, Threw err)).
Proof.
  intros Date remote w Ht; split.
  - intros e Hr.
    unfold reconcile, log_fsm, log, read, modify, await; simpl.
    rewrite Ht; simpl; rewrite Hr; reflexivity.
  - intros Hr; eexists.
    unfold reconcile, log_fsm, log, read, modify, await; simpl.
    rewrite Ht; simpl; rewrite Hr; reflexivity.
Qed.

Lemma trace_polling_world :
  forall w,
    trace (polling_world w) =
    trace w ++ [EvLog Debug (MsgChecking (fsm w));
                EvApi (ApiGetDeviceState (deviceId (fsm w)))].
Proof. intros w; simpl; rewrite <- !app_assoc; reflexivity. Qed.

(** The worlds a firing can end in. *)
Lemma reconcile_outcomes :
  forall Date remote w,
    let w' := fst (exec (reconcile Date) remote w) in
    w' = record_event (EvLog Debug (MsgChecking (fsm w))) w \/
    w' = polling_world w \/
    exists d, w' = polled_world d w \/
              w' = reset_world Date d (polled_world d w).
Proof.
  intros Date remote w w'; subst w'.
  destruct (Fsm.isTransitioning (fsm w)) eqn:Ht.
  - left; rewrite (exec_reconcile_transitioning Date remote w Ht); reflexivity.
  - right.
    destruct (remote (ApiGetDeviceState (deviceId (fsm w)))) as [[d |] | e] eqn:Hr.
    + right; exists d.
      rewrite (exec_reconcile_polled Date d remote w Ht Hr).
      destruct (disagree (state (fsm w)) (DeviceStatus d)); [right | left];
        reflexivity.
    + left.
      destruct (exec_reconcile_poll_fails Date remote w Ht) as (_ & Hn).
      destruct (Hn Hr) as (err & ->); reflexivity.
    + left.
      destruct (exec_reconcile_poll_fails Date remote w Ht) as (Hrej & _).
      rewrite (Hrej e Hr); reflexivity.
Qed.

(** X3: a firing of the reconciliation callback, whatever the remote side
    answers, never changes the displayed current state, never sets or
    removes a timer, and issues at most one remote call, the poll of the
    machine's own device; the machine keeps its device id and UUID. *)
Theorem reconcile_leaves_display_and_timers :
  forall Date remote w,
    let w' := fst (exec (reconcile Date) remote w) in
    currentDoorState w' = currentDoorState w /\
    timers w' = timers w /\
    timeouts (events_since w w') = [] /\
    (api_calls (events_since w w') = [] \/
     api_calls (events_since w w') =
       [ApiGetDeviceState (deviceId (fsm w))]) /\
    deviceId (fsm w') = deviceId (fsm w) /\
    platformUUID (fsm w') = platformUUID (fsm w).
Proof.
  intros Date remote w w'.
  destruct (reconcile_outcomes Date remote w) as [H | [H | (d & [H | H])]];
    fold w' in H; rewrite H.
  - rewrite events_since_record; repeat split; left; reflexivity.
  - rewrite (events_since_app w (polling_world w) _ (trace_polling_world w)).
    repeat split; right; reflexivity.
  - rewrite (events_since_app w (polled_world d w) _ (trace_polled_world d w)).
    repeat split; right; reflexivity.
  - rewrite (events_since_app w _ _ (trace_reset_polled_world Date d w)).
    assert (Hf : forall f,
               deviceId (apply_op (dictated_reset (DeviceStatus d)) f) = deviceId f /\
               platformUUID (apply_op (dictated_reset (DeviceStatus d)) f) =
               platformUUID f).
    { intros f; rewrite dictated_reset_case.
      destruct (status_case (DeviceStatus d)); split; reflexivity. }
    repeat split; try (right; reflexivity); simpl;
      [rewrite (proj1 (Hf _)) | rewrite (proj2 (Hf _))]; reflexivity.
Qed.

(** X4: when the poll of a firing is rejected, or resolves without a
    [Result], the firing ends with an error (nothing catches it) and
    the machine is left as it was: no reset is applied or logged. *)
Theorem failed_poll_changes_nothing :
  forall Date remote w,
    Fsm.isTransitioning (fsm w) = false ->
    (forall d, remote (ApiGetDeviceState (deviceId (fsm w))) <>
               Resolved (Some d)) ->
    let w' := fst (exec (reconcile Date) remote w) in
    (exists err, snd (exec (reconcile Date) remote w) = Threw err) /\
    (forall e, remote (ApiGetDeviceState (deviceId (fsm w))) = Rejected e ->
               snd (exec (reconcile Date) remote w) = Threw e) /\
    fsm w' = fsm w /\
    fsm_ops (events_since w w') = [] /\
    logged Info (events_since w w') = [].
Proof.
  intros Date remote w Ht Hn w'; subst w'.
  destruct (exec_reconcile_poll_fails Date remote w Ht) as (Hrej & Hnone).
  assert (He : exists err,
             exec (reconcile Date) remote w = (polling_world w, Threw err)).
  { destruct (remote (ApiGetDeviceState (deviceId (fsm w)))) as [[d |] | e] eqn:Hr.
    - exfalso; apply (Hn d); reflexivity.
    - apply Hnone; reflexivity.
    - exists e; apply Hrej; reflexivity. }
  destruct He as (err & He).
  split; [exists err; rewrite He; reflexivity |].
  split; [intros e Hr; rewrite (Hrej e Hr); reflexivity |].
  rewrite He; cbn [fst].
  rewrite (events_since_app w (polling_world w) _ (trace_polling_world w)).
  repeat split.
Qed.

Lemma failed_poll_changes_nothing_witness :
  Fsm.isTransitioning (fsm (sample_world "open" false)) = false /\
  fsm (fst (exec (reconcile sample_Date) never_answers
              (sample_world "open" false))) =
  fsm (sample_world "open" false).
Proof.
  split; [reflexivity |].
  apply (failed_poll_changes_nothing sample_Date never_answers
           (sample_world "open" false) eq_refl).
  intros d H; discriminate H.
Defined.

Lemma status_case_shown :
  forall status f,
    reported_current (apply_op (dictated_reset status) f) = status_shown status /\
    (state (apply_op (dictated_reset status) f) =? "stuck")%string =
    match status_case status with IsOther => true | _ => false end.
Proof.
  intros status f; rewrite dictated_reset_case; unfold status_shown.
  destruct (status_case status); split; reflexivity.
Qed.

(** X5: after a firing on an idle machine in state [open], [closed] or
    [stuck] whose poll answered with a record, the getters agree with the
    remote side: the current state is OPEN for status Open, CLOSED for
    Closed and STOPPED for anything else, and an obstruction is reported
    exactly in the last case. *)
Theorem reconcile_aligns_getters :
  forall Date d remote remote2 w,
    state (fsm w) = "open" \/ state (fsm w) = "closed" \/
    state (fsm w) = "stuck" ->
    Fsm.isTransitioning (fsm w) = false ->
    remote (ApiGetDeviceState (deviceId (fsm w))) = Resolved (Some d) ->
    let w' := fst (exec (reconcile Date) remote w) in
    snd (exec getCurrentDoorState remote2 w') =
      Returned (status_shown (DeviceStatus d)) /\
    snd (exec getObstructionDetected remote2 w') =
      Returned (match status_case (DeviceStatus d) with
                | IsOther => true
                | _ => false
                end) /\
    (DeviceStatus d = GarageDoorState.Open ->
     status_shown (DeviceStatus d) = CurrentDoorState.OPEN) /\
    (DeviceStatus d = GarageDoorState.Closed ->
     status_shown (DeviceStatus d) = CurrentDoorState.CLOSED) /\
    (DeviceStatus d <> GarageDoorState.Open ->
     DeviceStatus d <> GarageDoorState.Closed ->
     status_shown (DeviceStatus d) = CurrentDoorState.STOPPED).
Proof.
  intros Date d remote remote2 w Hs Ht Hr w'.
  rewrite exec_getCurrentDoorState, exec_getObstructionDetected; cbn [snd].
  subst w'; rewrite (fsm_after_reconcile Date d remote w Ht Hr).
  split; [| split; [| split; [| split]]].
  - destruct (disagree (state (fsm w)) (DeviceStatus d)) eqn:Hd.
    + f_equal; apply status_case_shown.
    + f_equal; revert Hd; unfold disagree, reported_current, status_shown,
        is_Open, is_Closed.
      unfold Fsm.isTransitioning in *; rewrite Ht.
      destruct Hs as [-> | [-> | ->]];
        destruct (status_case (DeviceStatus d)); simpl;
        intros; try discriminate; reflexivity.
  - destruct (disagree (state (fsm w)) (DeviceStatus d)) eqn:Hd.
    + f_equal; apply status_case_shown.
    + f_equal; revert Hd; unfold disagree, is_Open, is_Closed.
      destruct Hs as [-> | [-> | ->]];
        destruct (status_case (DeviceStatus d)); simpl;
        intros; try discriminate; reflexivity.
  - intros ->; reflexivity.
  - intros ->; reflexivity.
  - intros Ho Hc; unfold status_shown.
    destruct (status_case (DeviceStatus d)) eqn:Hsc; [| | reflexivity];
      exfalso; [apply Ho | apply Hc];
      destruct (DeviceStatus d) as [| | b | n | s | l]; try discriminate Hsc;
      destruct n as [| p | p]; try discriminate Hsc;
      destruct p as [p | p |]; try discriminate Hsc;
      try (destruct p as [p | p |]; try discriminate Hsc); reflexivity.
Qed.

Lemma reconcile_aligns_getters_witness :
  (state (fsm (sample_world "stuck" false)) = "open" \/
   state (fsm (sample_world "stuck" false)) = "closed" \/
   state (fsm (sample_world "stuck" false)) = "stuck") /\
  snd (exec getCurrentDoorState never_answers
         (fst (exec (reconcile sample_Date)
                 (answers (sample_device GarageDoorState.Closed "t1"))
                 (sample_world "stuck" false)))) =
  Returned CurrentDoorState.CLOSED.
Proof.
  split; [right; right; reflexivity |].
  apply (reconcile_aligns_getters sample_Date
           (sample_device GarageDoorState.Closed "t1")
           (answers (sample_device GarageDoorState.Closed "t1"))
           never_answers (sample_world "stuck" false)
           (or_intror (or_intror eq_refl)) eq_refl eq_refl).
Defined.

(** X6: the constructor leaves the machine idle, addressed to the
    device's id and holding the accessory's UUID, whatever the fresh
    machine was; it issues no remote call and sets no timer, starts
    exactly one interval, of 60000 ms, and right after it
    [getCurrentDoorState] answers what the device record says: OPEN,
    CLOSED, or STOPPED for any other status. *)
Theorem setup_reflects_device_record :
  forall Date dev uuid fresh remote remote2 w,
    let w0 := fst (exec (constructor Date dev uuid fresh) remote w) in
    snd (exec (constructor Date dev uuid fresh) remote w) = Returned tt /\
    deviceId (fsm w0) = DeviceId dev /\
    platformUUID (fsm w0) = uuid /\
    Fsm.isTransitioning (fsm w0) = false /\
    api_calls (events_since w w0) = [] /\
    timeouts (events_since w w0) = [] /\
    timers w0 = timers w /\
    intervals (events_since w w0) = [60000] /\
    snd (exec getCurrentDoorState remote2 w0) =
      Returned (status_shown (DeviceStatus dev)).
Proof.
  intros Date dev uuid fresh remote remote2 w w0; subst w0.
  rewrite exec_getCurrentDoorState, exec_constructor; cbn [fst snd].
  erewrite events_since_app by (simpl; rewrite <- !app_assoc; reflexivity).
  assert (Hf : forall f,
             deviceId (apply_op (dictated_reset (DeviceStatus dev)) f) = deviceId f /\
             platformUUID (apply_op (dictated_reset (DeviceStatus dev)) f) =
             platformUUID f /\
             Fsm.isTransitioning (apply_op (dictated_reset (DeviceStatus dev)) f) =
             false).
  { intros f; rewrite dictated_reset_case.
    destruct (status_case (DeviceStatus dev)); repeat split. }
  split; [reflexivity |].
  split; [simpl; rewrite (proj1 (Hf _)); reflexivity |].
  split; [simpl; rewrite (proj1 (proj2 (Hf _))); reflexivity |].
  split; [simpl; apply Hf |].
  split; [reflexivity |].
  split; [reflexivity |].
  split; [reflexivity |].
  split; [reflexivity |].
  simpl; f_equal; apply status_case_shown.
Qed.

(** ** Requests: every value, every answer *)

Lemma request_direction_not_open :
  forall value,
    value <> TargetDoorState.OPEN -> request_direction value = DirClose.
Proof.
  intros value H; unfold request_direction.
  destruct (Z.eqb_spec value TargetDoorState.OPEN); [contradiction | reflexivity].
Qed.

(** The three ways a request run to its end can go. *)
Lemma request_outcomes :
  forall device value remote w,
    let d := request_direction value in
    let call := command_call device d (deviceId (fsm w)) in
    let run := exec (setTargetDoorState device value) remote w in
    (Fsm.can d (fsm w) = false /\
     run = (mkWorld (fsm w) (Some (moving_value d))
              (timers w ++ [(confirm d, 12000)])
              (trace w ++ [EvLog Debug (MsgSetTarget value (fsm w));
                           EvSetCurrentDoorState (moving_value d);
                           EvLog Warn (refusal d (fsm w));
                           EvSetTimeout (confirm d) 12000]),
            Returned tt)) \/
    (Fsm.can d (fsm w) = true /\ (exists r, remote call = Resolved r) /\
     run = (mkWorld (set_transitioning true (fsm w)) (Some (moving_value d))
              (timers w ++ [(confirm d, 12000)])
              (trace w ++ [EvLog Debug (MsgSetTarget value (fsm w));
                           EvSetCurrentDoorState (moving_value d);
                           EvFsm (command_op d);
                           EvApi call;
                           EvSetTimeout (confirm d) 12000]),
            Returned tt)) \/
    (Fsm.can d (fsm w) = true /\
     exists e, remote call = Rejected e /\
     run = (mkWorld (Fsm.stuck (fsm w)) (Some CurrentDoorState.STOPPED)
              (timers w)
              (trace w ++ [EvLog Debug (MsgSetTarget value (fsm w));
                           EvSetCurrentDoorState (moving_value d);
                           EvFsm (command_op d);
                           EvApi call;
                           EvLog Error (MsgProblem (Fsm.stuck (fsm w)) e);
                           EvFsm OpStuck;
                           EvSetCurrentDoorState CurrentDoorState.STOPPED]),
            Returned tt)).
Proof.
  intros device value remote w d call run; subst call run.
  destruct (Fsm.can d (fsm w)) eqn:Hc.
  - destruct (remote (command_call device d (deviceId (fsm w)))) as [r | e] eqn:Hr.
    + right; left; split; [reflexivity |]; split; [exists r; reflexivity |].
      apply (exec_setTarget_sent device value remote w r Hc Hr).
    + right; right; split; [reflexivity |]; exists e; split; [reflexivity |].
      apply (exec_setTarget_failed device value remote w e Hc Hr).
  - left; split; [reflexivity |].
    apply (exec_setTarget_refused device value remote w Hc).
Qed.

(** X7: a value that is not [TargetDoorState.OPEN] is a request to
    close: whatever it is, the machine, the displayed state, the timers,
    the remote calls and the methods called come out as for
    [TargetDoorState.CLOSED]. *)
Theorem any_other_value_closes :
  forall device value remote w,
    value <> TargetDoorState.OPEN ->
    let wv := fst (exec (setTargetDoorState device value) remote w) in
    let wc := fst (exec (setTargetDoorState device TargetDoorState.CLOSED)
                     remote w) in
    fsm wv = fsm wc /\
    currentDoorState wv = currentDoorState wc /\
    timers wv = timers wc /\
    api_calls (events_since w wv) = api_calls (events_since w wc) /\
    fsm_ops (events_since w wv) = fsm_ops (events_since w wc) /\
    timeouts (events_since w wv) = timeouts (events_since w wc).
Proof.
  intros device value remote w Hv wv wc; subst wv wc.
  pose proof (request_direction_not_open value Hv) as Hd.
  assert (Hd' : request_direction TargetDoorState.CLOSED = DirClose)
    by reflexivity.
  destruct (request_outcomes device value remote w)
    as [(Hc & E) | [(Hc & (r & Hr) & E) | (Hc & e & Hr & E)]];
    rewrite E; rewrite Hd in *;
    destruct (request_outcomes device TargetDoorState.CLOSED remote w)
      as [(Hc' & E') | [(Hc' & (r' & Hr') & E') | (Hc' & e' & Hr' & E')]];
    rewrite E'; rewrite Hd' in *;
    try congruence;
    cbn [fst]; repeat (erewrite events_since_app by reflexivity);
    repeat split.
Qed.

Lemma any_other_value_closes_witness :
  7 <> TargetDoorState.OPEN /\
  fsm (fst (exec (setTargetDoorState (sample_device GarageDoorState.Open "t0") 7)
              (answers (sample_device GarageDoorState.Open "t0"))
              (sample_world "open" false))) =
  fsm (fst (exec (setTargetDoorState (sample_device GarageDoorState.Open "t0")
                    TargetDoorState.CLOSED)
              (answers (sample_device GarageDoorState.Open "t0"))
              (sample_world "open" false))).
Proof.
  split; [discriminate |].
  apply (any_other_value_closes (sample_device GarageDoorState.Open "t0") 7
           (answers (sample_device GarageDoorState.Open "t0"))
           (sample_world "open" false)).
  discriminate.
Defined.

Lemma setTarget_refused_awaits_nothing :
  forall device value w,
    Fsm.can (request_direction value) (fsm w) = false ->
    awaits_nothing (setTargetDoorState device value) w = true.
Proof.
  intros device value w Hc; unfold request_direction in Hc.
  unfold setTargetDoorState, setCurrentDoorState, setTimeout, log_fsm, log,
    read, modify, record_event; simpl.
  destruct (value =? TargetDoorState.OPEN); simpl in *; rewrite Hc; reflexivity.
Qed.

(** X8: the first thing a request does, before any answer of the remote
    side and whether or not it sends a command, is to show the moving
    state of its direction: OPENING for [TargetDoorState.OPEN], CLOSING
    for any other value. *)
Theorem request_shows_moving_state_first :
  forall device value w,
    let shown := currentDoorState
                   (fst (segment (setTargetDoorState device value) w)) in
    shown = Some (moving_value (request_direction value)) /\
    (value = TargetDoorState.OPEN -> shown = Some CurrentDoorState.OPENING) /\
    (value <> TargetDoorState.OPEN -> shown = Some CurrentDoorState.CLOSING).
Proof.
  intros device value w shown.
  assert (Hs : shown = Some (moving_value (request_direction value))).
  { subst shown.
    destruct (Fsm.can (request_direction value) (fsm w)) eqn:Hc.
    - destruct (setTarget_resumes device value w Hc) as (k & -> & _).
      reflexivity.
    - rewrite (segment_awaits_nothing unit _ never_answers w
                 (setTarget_refused_awaits_nothing device value w Hc)).
      rewrite (exec_setTarget_refused device value never_answers w Hc).
      reflexivity. }
  split; [exact Hs |]; split.
  - intros ->; exact Hs.
  - intros Hv; rewrite Hs, (request_direction_not_open value Hv); reflexivity.
Qed.

(** X9: a request always returns, whatever the remote side does, and it
    issues at most one remote call: the command of its direction, for
    the machine's own device, with the device's default metadata.  It
    never polls. *)
Theorem request_always_returns :
  forall device value remote w,
    let d := request_direction value in
    let w' := fst (exec (setTargetDoorState device value) remote w) in
    snd (exec (setTargetDoorState device value) remote w) = Returned tt /\
    (api_calls (events_since w w') = [] \/
     api_calls (events_since w w') =
       [command_call device d (deviceId (fsm w))]) /\
    deviceId (fsm w') = deviceId (fsm w) /\
    platformUUID (fsm w') = platformUUID (fsm w).
Proof.
  intros device value remote w d w'; subst w'.
  destruct (request_outcomes device value remote w)
    as [(Hc & E) | [(Hc & (r & Hr) & E) | (Hc & e & Hr & E)]];
    rewrite E; cbn [fst snd]; erewrite events_since_app by reflexivity;
    (split; [reflexivity |]); (split; [| split; reflexivity]).
  - left; reflexivity.
  - right; reflexivity.
  - right; reflexivity.
Qed.

(** X10: after a request whose command was rejected, the getters tell
    HomeKit so: an obstruction is reported, the current state is STOPPED
    and the target state is CLOSED, whichever direction was asked. *)
Theorem failed_command_reports_obstruction :
  forall device value remote remote2 w e,
    let d := request_direction value in
    Fsm.can d (fsm w) = true ->
    remote (command_call device d (deviceId (fsm w))) = Rejected e ->
    let w' := fst (exec (setTargetDoorState device value) remote w) in
    snd (exec getObstructionDetected remote2 w') = Returned true /\
    snd (exec getCurrentDoorState remote2 w') =
      Returned CurrentDoorState.STOPPED /\
    snd (exec getTargetDoorState remote2 w') =
      Returned TargetDoorState.CLOSED.
Proof.
  intros device value remote remote2 w e d Hc Hr w'; subst w'.
  rewrite (exec_setTarget_failed device value remote w e Hc Hr).
  rewrite exec_getObstructionDetected, exec_getCurrentDoorState,
    exec_getTargetDoorState.
  repeat split.
Qed.

Lemma failed_command_reports_obstruction_witness :
  Fsm.can (request_direction TargetDoorState.OPEN)
    (fsm (sample_world "closed" false)) = true /\
  snd (exec getObstructionDetected never_answers
         (fst (exec (setTargetDoorState
                       (sample_device GarageDoorState.Closed "t0")
                       TargetDoorState.OPEN)
                 never_answers (sample_world "closed" false)))) =
  Returned true.
Proof.
  split; [reflexivity |].
  apply (failed_command_reports_obstruction
           (sample_device GarageDoorState.Closed "t0") TargetDoorState.OPEN
           never_answers never_answers (sample_world "closed" false)
           (ApiError "offline") eq_refl eq_refl).
Defined.

(** ** Every run of the event loop: calls stay with the own device *)

Lemma api_calls_app :
  forall a b, api_calls (a ++ b) = api_calls a ++ api_calls b.
Proof. intros a b; unfold api_calls; apply flat_map_app. Qed.

Lemma own_calls_extend :
  forall id w w' new,
    own_calls id w ->
    deviceId (fsm w') = deviceId (fsm w) ->
    trace w' = trace w ++ new ->
    Forall (fun c => call_id c = id) (api_calls new) ->
    own_calls id w'.
Proof.
  intros id w w' new [Hid Hcalls] Hd Ht Hnew; split.
  - rewrite Hd; exact Hid.
  - rewrite Ht, api_calls_app; apply Forall_app; split; assumption.
Qed.

Lemma own_calls_reset_world :
  forall id Date d w, own_calls id w -> own_calls id (reset_world Date d w).
Proof.
  intros id Date d w H.
  apply (own_calls_extend id w _
           [EvLog Info
              (reset_message
                 (set_lastTransition (Date (LastOperationTimestamp d)) (fsm w)) d);
            EvFsm (dictated_reset (DeviceStatus d))] H).
  - simpl; rewrite dictated_reset_case.
    destruct (status_case (DeviceStatus d)); reflexivity.
  - reflexivity.
  - constructor.
Qed.

Lemma own_calls_record :
  forall id e w,
    own_calls id w ->
    Forall (fun c => call_id c = id) (api_calls [e]) ->
    own_calls id (record_event e w).
Proof.
  intros id e w H He.
  apply (own_calls_extend id w _ [e] H); [reflexivity | reflexivity | exact He].
Qed.

Lemma segment_resetDeviceState :
  forall Date d w,
    segment (resetDeviceState Date d) w =
    (reset_world Date d w, Finished (Returned tt)).
Proof.
  intros Date d w.
  unfold resetDeviceState, reset_world, reset_message, log_fsm, log, fsm_call,
    read, modify, record_event, with_fsm.
  rewrite dictated_reset_case.
  destruct (status_case (DeviceStatus d)); simpl; rewrite <- app_assoc; reflexivity.
Qed.

Opaque resetDeviceState.

Lemma reconcile_own_calls :
  forall id Date, callback_own_calls id (reconcile Date).
Proof.
  intros id Date w Hown.
  unfold reconcile, log_fsm, log, state_is, read, modify, await; simpl.
  destruct (Fsm.isTransitioning (fsm w)) eqn:Ht; simpl.
  - apply own_calls_record; [exact Hown | constructor].
  - assert (Hid : deviceId (fsm w) = id) by apply Hown.
    split; [| split; [exact Hid |]].
    + apply own_calls_record;
        [apply own_calls_record; [exact Hown | constructor] |].
      simpl; constructor; [exact Hid | constructor].
    + intros r w2 Hown2.
      destruct r as [[d |] | e]; simpl.
      * assert (Hlog : own_calls id
                  (record_event (EvLog Debug (MsgApiStatus (DeviceStatus d))) w2))
          by (apply own_calls_record; [exact Hown2 | constructor]).
        destruct (state (fsm w2) =? "open")%string eqn:Eo;
          destruct (is_Open (DeviceStatus d)) eqn:Io; simpl;
          try (rewrite segment_resetDeviceState; eexists; eexists;
               split; [reflexivity | apply own_calls_reset_world; exact Hlog]);
          rewrite ?Eo; simpl;
          (destruct (state (fsm w2) =? "closed")%string eqn:Ec;
           destruct (is_Closed (DeviceStatus d)) eqn:Ic; simpl;
           try (rewrite segment_resetDeviceState; eexists; eexists;
                split; [reflexivity | apply own_calls_reset_world; exact Hlog]);
           rewrite ?Ec; simpl;
           (destruct (state (fsm w2) =? "stuck")%string eqn:Es; simpl;
            try (rewrite segment_resetDeviceState; eexists; eexists;
                 split; [reflexivity | apply own_calls_reset_world; exact Hlog]);
            (eexists; eexists; split; [reflexivity | exact Hlog]))).
      * eexists; eexists; split; [reflexivity | exact Hown2].
      * eexists; eexists; split; [reflexivity | exact Hown2].
Qed.

Transparent resetDeviceState.

Lemma run_timer_own_calls :
  forall id cb, callback_own_calls id (run_timer cb).
Proof.
  intros id cb w Hown.
  unfold run_timer, setCurrentDoorState, log, modify.
  destruct cb; simpl;
    (apply own_calls_record; [| constructor]);
    (eapply own_calls_extend;
     [exact Hown | reflexivity | reflexivity | constructor]).
Qed.

Lemma setTarget_continuation_awaits_nothing :
  forall device value w,
    Fsm.can (request_direction value) (fsm w) = true ->
    exists k,
      segment (setTargetDoorState device value) w =
        (sent_world device value w,
         Suspended (command_call device (request_direction value)
                      (deviceId (fsm w))) k) /\
      forall r w2, awaits_nothing (k r) w2 = true.
Proof.
  intros device value w Hc.
  unfold sent_world, request_direction in *.
  unfold setTargetDoorState, fsm_open, fsm_close, fsm_command, fsm_call,
    clientAdapter_open, clientAdapter_close, await, setCurrentDoorState,
    setTimeout, log_fsm, log, read, modify, record_event, with_fsm; simpl.
  destruct (value =? TargetDoorState.OPEN); simpl in *;
    rewrite Hc; simpl; unfold nullish_coalesce; simpl;
    (eexists; split;
     [unfold record_event; simpl; rewrite <- !app_assoc; reflexivity |]);
    intros [r | e] w2; reflexivity.
Qed.

Lemma setTargetDoorState_own_calls :
  forall id device value, callback_own_calls id (setTargetDoorState device value).
Proof.
  intros id device value w Hown.
  assert (Hid : deviceId (fsm w) = id) by apply Hown.
  destruct (Fsm.can (request_direction value) (fsm w)) eqn:Hc.
  - destruct (setTarget_resumes device value w Hc) as (k & Hs & Hrej & Hres).
    destruct (setTarget_continuation_awaits_nothing device value w Hc)
      as (k' & Hs' & Hq).
    assert (Hk : k = k') by (rewrite Hs in Hs'; injection Hs' as E; exact E).
    subst k'; rewrite Hs.
    split; [| split].
    + apply (own_calls_extend id w _
               [EvLog Debug (MsgSetTarget value (fsm w));
                EvSetCurrentDoorState (moving_value (request_direction value));
                EvFsm (command_op (request_direction value));
                EvApi (command_call device (request_direction value)
                         (deviceId (fsm w)))] Hown);
        [reflexivity | reflexivity |].
      simpl; constructor; [| constructor].
      destruct (request_direction value); exact Hid.
    + destruct (request_direction value); exact Hid.
    + intros r w2 Hown2.
      rewrite (segment_awaits_nothing unit (k r) never_answers w2 (Hq r w2)).
      eexists; eexists; split; [reflexivity |].
      destruct r as [r | e].
      * rewrite Hres; cbn [fst].
        apply (own_calls_extend id w2 _
                 [EvSetTimeout (confirm (request_direction value)) 12000] Hown2);
          [reflexivity | reflexivity | constructor].
      * rewrite Hrej; cbn [fst].
        apply (own_calls_extend id w2 _
                 [EvLog Error (MsgProblem (Fsm.stuck (fsm w2)) e);
                  EvFsm OpStuck;
                  EvSetCurrentDoorState CurrentDoorState.STOPPED] Hown2);
          [reflexivity | reflexivity | constructor].
  - rewrite (segment_awaits_nothing unit _ never_answers w
               (setTarget_refused_awaits_nothing device value w Hc)).
    rewrite (exec_setTarget_refused device value never_answers w Hc).
    cbn [fst snd].
    apply (own_calls_extend id w _
             [EvLog Debug (MsgSetTarget value (fsm w));
              EvSetCurrentDoorState (moving_value (request_direction value));
              EvLog Warn (refusal (request_direction value) (fsm w));
              EvSetTimeout (confirm (request_direction value)) 12000] Hown);
      [reflexivity | reflexivity | constructor].
Qed.

Lemma Forall_remove_nth :
  forall (A : Type) (P : A -> Prop) i (l : list A),
    Forall P l -> Forall P (remove_nth i l).
Proof.
  intros A P i l H; revert i.
  induction H as [| x l Hx Hl IH]; intros i; destruct i as [| j]; simpl.
  - constructor.
  - constructor.
  - exact Hl.
  - constructor; [exact Hx | apply IH].
Qed.

Lemma run_callback_own_calls :
  forall id p l,
    callback_own_calls id p ->
    loop_own_calls id l ->
    loop_own_calls id (run_callback p l).
Proof.
  intros id p l Hp [Hw Hpend]; unfold run_callback.
  specialize (Hp (world l) Hw).
  destruct (segment p (world l)) as [w' [res | c k]].
  - split; [exact Hp | exact Hpend].
  - destruct Hp as (Hw' & Hc & Hk); split; [exact Hw' |].
    simpl; apply Forall_app; split; [exact Hpend |].
    constructor; [split; assumption | constructor].
Qed.

Lemma loop_step_own_calls :
  forall id Date device s l l',
    loop_own_calls id l ->
    loop_step Date device s l = Some l' ->
    loop_own_calls id l'.
Proof.
  intros id Date device s l l' Hl Hstep.
  destruct s as [| value | i | i r]; simpl in Hstep.
  - injection Hstep as <-.
    apply run_callback_own_calls; [apply reconcile_own_calls | exact Hl].
  - injection Hstep as <-.
    apply run_callback_own_calls; [apply setTargetDoorState_own_calls | exact Hl].
  - destruct (nth_error (timers (world l)) i) as [[cb ms] |]; [| discriminate].
    injection Hstep as <-.
    apply run_callback_own_calls; [apply run_timer_own_calls |].
    destruct Hl as [Hw Hpend]; split; [exact Hw | exact Hpend].
  - destruct (nth_error (pending l) i) as [[c k] |] eqn:Hn; [| discriminate].
    injection Hstep as <-.
    destruct Hl as [Hw Hpend].
    assert (Hk : settles_quietly id k).
    { apply nth_error_In in Hn.
      rewrite Forall_forall in Hpend.
      apply (Hpend (c, k) Hn). }
    destruct (Hk r (world l) Hw) as (w' & res & Hs & Hw').
    unfold run_callback; simpl; rewrite Hs; split; [exact Hw' |].
    simpl; apply Forall_remove_nth; exact Hpend.
Qed.

Lemma loop_run_own_calls :
  forall id Date device ss l l',
    loop_own_calls id l ->
    loop_run Date device ss l = Some l' ->
    loop_own_calls id l'.
Proof.
  intros id Date device ss.
  induction ss as [| s rest IH]; intros l l' Hl Hrun; simpl in Hrun.
  - injection Hrun as <-; exact Hl.
  - destruct (loop_step Date device s l) as [l1 |] eqn:Hs; [| discriminate].
    apply (IH l1 l' (loop_step_own_calls id Date device s l l1 Hl Hs) Hrun).
Qed.

(** X11: in every run of the event loop that starts with no call pending,
    however polls, requests, timers and answers interleave, the machine
    keeps its device id, every remote call the accessory issues is about
    that device, and so is every call still pending. *)
Theorem calls_stay_with_own_device :
  forall Date device ss w l',
    Forall (fun c => call_id c = deviceId (fsm w)) (api_calls (trace w)) ->
    loop_run Date device ss (mkLoop w []) = Some l' ->
    deviceId (fsm (world l')) = deviceId (fsm w) /\
    Forall (fun c => call_id c = deviceId (fsm w))
      (api_calls (trace (world l'))) /\
    Forall (fun ck => call_id (fst ck) = deviceId (fsm w)) (pending l').
Proof.
  intros Date device ss w l' Hcalls Hrun.
  assert (H0 : loop_own_calls (deviceId (fsm w)) (mkLoop w []))
    by (split; [split; [reflexivity | exact Hcalls] | constructor]).
  destruct (loop_run_own_calls _ Date device ss _ l' H0 Hrun)
    as [[Hid Hc] Hpend].
  split; [exact Hid | split; [exact Hc |]].
  apply Forall_forall; intros ck Hin.
  rewrite Forall_forall in Hpend; apply (Hpend ck Hin).
Qed.

Lemma calls_stay_with_own_device_witness :
  Forall (fun c => call_id c = deviceId (fsm (sample_world "closed" false)))
    (api_calls (trace (sample_world "closed" false))) /\
  loop_run sample_Date (sample_device GarageDoorState.Closed "t0")
    sample_stimuli (sample_loop "closed" false) = Some sample_run_end /\
  Forall (fun c => call_id c = deviceId (fsm (sample_world "closed" false)))
    (api_calls (trace (world sample_run_end))).
Proof.
  split; [constructor | split; [reflexivity |]].
  apply (calls_stay_with_own_device sample_Date
           (sample_device GarageDoorState.Closed "t0") sample_stimuli
           (sample_world "closed" false) sample_run_end);
    [constructor | reflexivity].
Defined.

(** ** Setup, then the first firing; a request for the state the door is in *)

(** X20: the first firing after the constructor changes nothing when the
    poll reports the status the device record had at setup: no method of
    the machine is called and the machine stays as the constructor left
    it. *)
Theorem first_firing_after_setup_is_quiet :
  forall Date dev uuid fresh d2 remote remote2 w,
    let w0 := fst (exec (constructor Date dev uuid fresh) remote w) in
    remote2 (ApiGetDeviceState (DeviceId dev)) = Resolved (Some d2) ->
    DeviceStatus d2 = DeviceStatus dev ->
    let w1 := fst (exec (reconcile Date) remote2 w0) in
    fsm w1 = fsm w0 /\
    fsm_ops (events_since w0 w1) = [] /\
    api_calls (events_since w0 w1) = [ApiGetDeviceState (DeviceId dev)].
Proof.
  intros Date dev uuid fresh d2 remote remote2 w w0 Hr Hs w1.
  assert (Hf : fsm w0 =
               apply_op (dictated_reset (DeviceStatus dev))
                 (set_lastTransition (Date (LastOperationTimestamp dev))
                    (set_platformUUID uuid (set_deviceId (DeviceId dev) fresh))))
    by (subst w0; rewrite exec_constructor; reflexivity).
  assert (Hid : deviceId (fsm w0) = DeviceId dev).
  { rewrite Hf.
    destruct (apply_reset_fields (DeviceStatus dev)
                (set_lastTransition (Date (LastOperationTimestamp dev))
                   (set_platformUUID uuid (set_deviceId (DeviceId dev) fresh))))
      as (_ & -> & _).
    reflexivity. }
  assert (Ht : Fsm.isTransitioning (fsm w0) = false)
    by (rewrite Hf; apply (apply_reset_fields (DeviceStatus dev))).
  assert (Hd : disagree (state (fsm w0)) (DeviceStatus d2) = false)
    by (rewrite Hs, Hf; apply disagree_after_reset).
  assert (Hr0 : remote2 (ApiGetDeviceState (deviceId (fsm w0))) =
                Resolved (Some d2))
    by (rewrite Hid; exact Hr).
  subst w1.
  rewrite (fsm_after_reconcile Date d2 remote2 w0 Ht Hr0).
  rewrite (ops_of_reconcile Date d2 remote2 w0 Ht Hr0).
  rewrite (exec_reconcile_polled Date d2 remote2 w0 Ht Hr0).
  rewrite Hd; cbn [fst].
  rewrite (events_since_app w0 (polled_world d2 w0) _ (trace_polled_world d2 w0)).
  simpl; rewrite Hid; repeat split.
Qed.

Lemma first_firing_after_setup_is_quiet_witness :
  answers (sample_device GarageDoorState.Open "t9")
    (ApiGetDeviceState (DeviceId (sample_device GarageDoorState.Open "t0"))) =
    Resolved (Some (sample_device GarageDoorState.Open "t9")) /\
  fsm (fst (exec (reconcile sample_Date)
              (answers (sample_device GarageDoorState.Open "t9"))
              (fst (exec (constructor sample_Date
                            (sample_device GarageDoorState.Open "t0")
                            "uuid-1" (sample_fsm "stuck" true))
                      never_answers (sample_world "stuck" true))))) =
  fsm (fst (exec (constructor sample_Date
                    (sample_device GarageDoorState.Open "t0")
                    "uuid-1" (sample_fsm "stuck" true))
              never_answers (sample_world "stuck" true))).
Proof.
  split; [reflexivity |].
  apply (first_firing_after_setup_is_quiet sample_Date
           (sample_device GarageDoorState.Open "t0") "uuid-1"
           (sample_fsm "stuck" true)
           (sample_device GarageDoorState.Open "t9") never_answers
           (answers (sample_device GarageDoorState.Open "t9"))
           (sample_world "stuck" true) eq_refl eq_refl).
Defined.

(** X21: a request for the state an idle door is already in sends
    nothing and leaves the machine alone; once its timer has fired the
    displayed state is that state again, as [getCurrentDoorState]
    answers it. *)
Theorem request_for_current_state_sends_nothing :
  forall device value remote w,
    let d := request_direction value in
    state (fsm w) = target_state d ->
    Fsm.isTransitioning (fsm w) = false ->
    let w1 := fst (exec (setTargetDoorState device value) remote w) in
    let w2 := fst (exec (run_timer (confirm d)) remote w1) in
    api_calls (events_since w w1) = [] /\
    timers w1 = timers w ++ [(confirm d, 12000)] /\
    fsm w2 = fsm w /\
    currentDoorState w2 = Some (terminal_value d) /\
    snd (exec getCurrentDoorState remote w2) = Returned (terminal_value d).
Proof.
  intros device value remote w d Hs Ht w1 w2.
  assert (Hc : Fsm.can d (fsm w) = false).
  { unfold Fsm.can; rewrite Hs, String.eqb_refl; reflexivity. }
  subst w2 w1.
  rewrite exec_getCurrentDoorState, exec_run_timer.
  rewrite (exec_setTarget_refused device value remote w Hc); cbn [fst snd].
  erewrite events_since_app by reflexivity.
  repeat split.
  simpl; unfold reported_current.
  unfold Fsm.isTransitioning in *; rewrite Hs, Ht.
  destruct d; reflexivity.
Qed.

Lemma request_for_current_state_sends_nothing_witness :
  state (fsm (sample_world "closed" false)) =
    target_state (request_direction TargetDoorState.CLOSED) /\
  api_calls (events_since (sample_world "closed" false)
    (fst (exec (setTargetDoorState (sample_device GarageDoorState.Closed "t0")
                  TargetDoorState.CLOSED)
            never_answers (sample_world "closed" false)))) = [].
Proof.
  split; [reflexivity |].
  apply (request_for_current_state_sends_nothing
           (sample_device GarageDoorState.Closed "t0") TargetDoorState.CLOSED
           never_answers (sample_world "closed" false) eq_refl eq_refl).
Defined.
